(** * pdf_compressor.py: a shallow embedding and its properties

    The program is a command line driver around Ghostscript: it checks the
    engine version, validates the input path, and tries the quality presets
    'printer', 'ebook', 'screen' in that order until one yields a smaller
    file.  Everything the program does goes through the file system, the
    console and [subprocess.run]; the embedding threads these three through
    a state-and-exception monad.  The engine itself (what a started process
    answers and what it does to the disk) is a parameter. *)

From Stdlib Require Import ZArith NArith QArith Ascii String List Bool Lia.
From Stdlib Require Import Strings.Byte.
From stdpp Require Import gmap strings list.

Local Open Scope string_scope.
Local Open Scope N_scope.

(** ** Python strings

    A Python [str] is a Rocq [string], one [ascii] per character: this
    covers the code points below 256. *)

Module Str.

(** [str.lower] on code points below 256: A..Z and the Latin-1 capitals
    (U+00C0..U+00DE without the multiplication sign U+00D7) move by 32. *)
Definition is_upper (n : N) : bool :=
  ((65 <=? n) && (n <=? 90)) || ((192 <=? n) && (n <=? 222) && negb (n =? 215)).

Definition lower_char (c : ascii) : ascii :=
  let n := N_of_ascii c in
  if is_upper n then ascii_of_N (n + 32) else c.

Fixpoint lower (s : string) : string :=
  match s with
  | EmptyString => EmptyString
  | String c s' => String (lower_char c) (lower s')
  end.

(** [s.startswith(pre)] *)
Fixpoint startswith (s pre : string) : bool :=
  match pre, s with
  | EmptyString, _ => true
  | String a pre', String b s' => Ascii.eqb a b && startswith s' pre'
  | String _ _, EmptyString => false
  end.

(** [s.endswith(suf)]: some tail of [s] is [suf]. *)
Fixpoint endswith (s suf : string) : bool :=
  String.eqb s suf ||
  match s with
  | EmptyString => false
  | String _ s' => endswith s' suf
  end.

(** [str.isspace] on code points below 256: TAB..CR, FS..US, space,
    NEL (U+0085) and the no-break space (U+00A0). *)
Definition is_space (c : ascii) : bool :=
  let n := N_of_ascii c in
  ((9 <=? n) && (n <=? 13)) || ((28 <=? n) && (n <=? 32)) || (n =? 133) || (n =? 160).

Fixpoint lstrip (s : string) : string :=
  match s with
  | EmptyString => EmptyString
  | String c s' => if is_space c then lstrip s' else s
  end.

Fixpoint rstrip (s : string) : string :=
  match s with
  | EmptyString => EmptyString
  | String c s' =>
      match rstrip s' with
      | EmptyString => if is_space c then EmptyString else String c EmptyString
      | r => String c r
      end
  end.

(** [s.strip()] *)
Definition strip (s : string) : string := rstrip (lstrip s).

(** [s.rfind(c)] for one character: the highest index holding [c], or -1.
    [rfind_from i] numbers the characters of its argument from [i]. *)
Fixpoint rfind_from (i : Z) (c : ascii) (s : string) : Z :=
  match s with
  | EmptyString => (-1)%Z
  | String a s' =>
      let r := rfind_from (i + 1) c s' in
      if (0 <=? r)%Z then r else if Ascii.eqb a c then i else (-1)%Z
  end.

Definition rfind (c : ascii) (s : string) : Z := rfind_from 0 c s.

(** The [while filenameIndex < dotIndex] loop of [genericpath._splitext]:
    [true] when a character other than the dot is met before [dotIndex],
    [fuel] being [dotIndex - filenameIndex]. *)
Fixpoint name_before_dot (fuel : nat) (filenameIndex : nat) (p : string) : bool :=
  match fuel with
  | O => false
  | S k =>
      match String.get filenameIndex p with
      | Some c => if Ascii.eqb c "." then name_before_dot k (S filenameIndex) p else true
      | None => true
      end
  end.

(** [os.path.splitext]: [genericpath._splitext(p, sep, altsep, '.')] with
    [sep = '/'] and no [altsep] for posixpath, [sep = '\'] and
    [altsep = '/'] for ntpath. *)
Definition splitext (nt : bool) (p : string) : string * string :=
  let sepIndex :=
    if nt then Z.max (rfind "\" p) (rfind "/" p) else rfind "/" p in
  let dotIndex := rfind "." p in
  if (sepIndex <? dotIndex)%Z
     && name_before_dot (Z.to_nat (dotIndex - (sepIndex + 1))) (Z.to_nat (sepIndex + 1)) p
  then (substring 0 (Z.to_nat dotIndex) p,
        substring (Z.to_nat dotIndex) (String.length p - Z.to_nat dotIndex) p)
  else (p, "").

(** [bytes.decode()] with its defaults (UTF-8, strict) succeeds exactly on
    well-formed UTF-8: no stray continuation byte, no overlong form, no
    surrogate, nothing above U+10FFFF. *)
Definition between (lo hi : N) (b : byte) : bool :=
  (lo <=? Byte.to_N b) && (Byte.to_N b <=? hi).

Fixpoint utf8_valid (bs : list byte) : bool :=
  match bs with
  | [] => true
  | b0 :: r0 =>
      if between 0 127 b0 then utf8_valid r0
      else
        match r0 with
        | [] => false
        | b1 :: r1 =>
            if between 194 223 b0 then between 128 191 b1 && utf8_valid r1
            else
              match r1 with
              | [] => false
              | b2 :: r2 =>
                  if between 224 224 b0 then
                    between 160 191 b1 && between 128 191 b2 && utf8_valid r2
                  else if between 225 236 b0 || between 238 239 b0 then
                    between 128 191 b1 && between 128 191 b2 && utf8_valid r2
                  else if between 237 237 b0 then
                    between 128 159 b1 && between 128 191 b2 && utf8_valid r2
                  else
                    match r2 with
                    | [] => false
                    | b3 :: r3 =>
                        if between 240 240 b0 then
                          between 144 191 b1 && between 128 191 b2
                          && between 128 191 b3 && utf8_valid r3
                        else if between 241 243 b0 then
                          between 128 191 b1 && between 128 191 b2
                          && between 128 191 b3 && utf8_valid r3
                        else if between 244 244 b0 then
                          between 128 143 b1 && between 128 191 b2
                          && between 128 191 b3 && utf8_valid r3
                        else false
                    end
              end
        end
  end.

End Str.

(** ** File sizes as binary64 numbers

    [os.path.getsize(p) / (1024 * 1024)] is Python's true division of two
    integers: the exact quotient, rounded once to the nearest binary64
    (ties to even).  Dividing by a power of two only moves the exponent, so
    the quotient is [round53 n / 2^20], where [round53] rounds the byte
    count to 53 significant bits.  A size in MB is kept as this numerator
    over [1024 * 1024]. *)

Definition round53 (n : N) : N :=
  if n <? 2 ^ 53 then n
  else
    let e := N.log2 n - 52 in
    let q := n / 2 ^ e in
    let r := n mod 2 ^ e in
    let half := 2 ^ (e - 1) in
    let q' := if (half <? r) || ((r =? half) && N.odd q) then q + 1 else q in
    q' * 2 ^ e.


(** ** The world the program runs in *)

(** The exceptions that can travel through the program; all of them are
    subclasses of Python's [Exception]. *)
Inductive exn : Type :=
| FileNotFoundError
| CalledProcessError (returncode : Z) (stderr : list byte)
| UnicodeDecodeError
| ZeroDivisionError
| OtherError (what : string).

Inductive result (A : Type) : Type :=
| Return (a : A)
| Raise (e : exn).
Arguments Return {A} a.
Arguments Raise {A} e.

(** What [subprocess.run] gets from the operating system: a process that
    ran to its end, no such executable, or any other failure to launch it
    or to read its output (PermissionError, a decoding error of the
    captured text, ...). *)
Record completed : Type :=
  Completed { returncode : Z; stdout : string; stderr : list byte }.

Inductive launch : Type :=
| Exited (p : completed)
| NotFound
| Failed (what : string).

(** The console: one constructor per [print] (or block of consecutive
    prints), holding the values the text is formatted from. *)
Inductive message : Type :=
| MsgUsage                                   (* lines 117-118 *)
| MsgVersionWarning (version : string)       (* lines 40-46 *)
| MsgNotFound                                (* lines 50-55 *)
| MsgVersionError (e : exn)                  (* line 58 *)
| MsgGhostscriptError (text : list byte)     (* line 109 *)
| MsgError (e : exn)                         (* line 112 *)
| MsgInvalidInput                            (* line 127 *)
| MsgOriginalSize (original_size : N)        (* line 133 *)
| MsgCompressing                             (* line 135 *)
| MsgTrying (quality : string)               (* line 142 *)
| MsgSuccess (quality : string) (original_size compressed_size : N)
             (reduction : Q) (output_pdf : string)   (* lines 149-153 *)
| MsgNextLevel                               (* line 156 *)
| MsgNoReduction.                            (* lines 160-164 *)

(** The disk maps each existing path to its size in bytes; [procs] lists
    the argument vectors of the calls of [subprocess.run], oldest first
    (a call is listed whether or not a process could be started). *)
Record world : Type := World {
  fs : gmap string N;
  procs : list (list string);
  console : list message
}.

Record host : Type := Host {
  platform_system : string;   (* platform.system() *)
  os_name : string            (* os.name: "nt" selects ntpath *)
}.

(** ** State and exceptions *)

Definition M (A : Type) : Type := world -> result A * world.

Definition ret {A} (a : A) : M A := fun w => (Return a, w).

Definition raise {A} (e : exn) : M A := fun w => (Raise e, w).

Definition bind {A B} (m : M A) (k : A -> M B) : M B :=
  fun w =>
    match m w with
    | (Return a, w1) => k a w1
    | (Raise e, w1) => (Raise e, w1)
    end.

(** [try: body / except Exception as e: handler e] *)
Definition try_except {A} (body : M A) (handler : exn -> M A) : M A :=
  fun w =>
    match body w with
    | (Return a, w1) => (Return a, w1)
    | (Raise e, w1) => handler e w1
    end.

Declare Scope py_scope.
Delimit Scope py_scope with py.
Notation "x <- m ;; k" := (bind m (fun x => k))
  (at level 100, m at level 99, k at level 200, right associativity) : py_scope.
Notation "m ;;; k" := (bind m (fun _ => k))
  (at level 100, k at level 200, right associativity) : py_scope.
Local Open Scope py_scope.

(** The world after one more message on the console. *)
Definition say (m : message) (w : world) : world :=
  World (fs w) (procs w) (console w ++ [m]).

Definition print (m : message) : M unit := fun w => (Return tt, say m w).

Definition read_disk : M (gmap string N) := fun w => (Return (fs w), w).

(** [os.path.exists] *)
Definition exists_on (d : gmap string N) (p : string) : bool :=
  match d !! p with Some _ => true | None => false end.

(** [os.remove] *)
Definition os_remove (p : string) : M unit :=
  fun w =>
    match fs w !! p with
    | Some _ => (Return tt, World (delete p (fs w)) (procs w) (console w))
    | None => (Raise FileNotFoundError, w)
    end.

(** [bytes.decode()]; the decoded text is kept as the bytes it came from. *)
Definition decode (bs : list byte) : M (list byte) :=
  if Str.utf8_valid bs then ret bs else raise UnicodeDecodeError.

Section Program.

(** The machine the script runs on, and the engine: what starting a
    process with a given argument vector on a given disk answers, and the
    disk it leaves. *)
Variable h : host.
Variable spawn : list string -> gmap string N -> launch * gmap string N.

(** [subprocess.run(cmd, check=..., capture_output=True)] *)
Definition subprocess_run (check : bool) (cmd : list string) : M completed :=
  fun w =>
    let '(l, d) := spawn cmd (fs w) in
    let w1 := World d (procs w ++ [cmd]) (console w) in
    match l with
    | Exited p =>
        if check && negb (returncode p =? 0)%Z
        then (Raise (CalledProcessError (returncode p) (stderr p)), w1)
        else (Return p, w1)
    | NotFound => (Raise FileNotFoundError, w1)
    | Failed what => (Raise (OtherError what), w1)
    end.

(** *** The program, function by function *)

Definition check_pdf (file_path : string) : M bool :=
  d <- read_disk ;;
  if negb (exists_on d file_path) then ret false
  else ret (Str.endswith (Str.lower file_path) ".pdf").

Definition get_file_size (file_path : string) : M N :=
  d <- read_disk ;;
  match d !! file_path with
  | Some n => ret (round53 n)
  | None => raise FileNotFoundError
  end.

Definition is_windows : bool :=
  String.eqb (Str.lower (platform_system h)) "windows".

Definition gs_paths : list string :=
  [ "C:\Program Files\gs\gs10.04.0\bin\gswin64c.exe";
    "C:\Program Files\gs\gs10.04\bin\gswin64c.exe" ].

(** The binary [get_gs_binary] picks on a given disk. *)
Definition gs_binary_on (d : gmap string N) : string :=
  if is_windows then
    match List.find (exists_on d) gs_paths with
    | Some path => path
    | None => "gswin64c.exe"
    end
  else "gs".

Definition get_gs_binary : M string :=
  d <- read_disk ;; ret (gs_binary_on d).

Definition check_ghostscript : M bool :=
  try_except
    (gs_binary <- get_gs_binary ;;
     version_check <- subprocess_run false [gs_binary; "--version"] ;;
     let version := Str.strip (stdout version_check) in
     if negb (Str.startswith version "10.04") then
       print (MsgVersionWarning version) ;;; ret false
     else ret true)
    (fun e =>
       match e with
       | FileNotFoundError => print MsgNotFound ;;; ret false
       | _ => print (MsgVersionError e) ;;; ret false
       end).

Definition quality_settings : gmap string string :=
  <["printer" := "/printer"]>
    (<["ebook" := "/ebook"]> (<["screen" := "/screen"]> ∅)).

Definition gs_command (gs_binary input_path output_path quality : string)
  : list string :=
  [ gs_binary;
    "-dNOPAUSE";
    "-dBATCH";
    "-dQUIET";
    "-sDEVICE=pdfwrite";
    "-dCompatibilityLevel=1.7";
    "-dPDFSETTINGS=" ++ default "/printer" (quality_settings !! quality);
    "-dMaxSubsetPct=100";
    "-dSubsetFonts=true";
    "-dEmbedAllFonts=true";
    "-dAutoRotatePages=/None";
    "-dColorImageDownsampleType=/Bicubic";
    "-dColorImageResolution=300";
    "-dGrayImageDownsampleType=/Bicubic";
    "-dGrayImageResolution=300";
    "-dMonoImageDownsampleType=/Bicubic";
    "-dMonoImageResolution=300";
    "-dDownsampleColorImages=false";
    "-dDownsampleGrayImages=false";
    "-dDownsampleMonoImages=false";
    "-dColorConversionStrategy=/LeaveColorUnchanged";
    "-dAutoFilterColorImages=false";
    "-dAutoFilterGrayImages=false";
    "-dCompressPages=true";
    "-sOutputFile=" ++ output_path;
    input_path ].

Definition compress_pdf (input_path output_path quality : string) : M bool :=
  gs_binary <- get_gs_binary ;;
  try_except
    (subprocess_run true (gs_command gs_binary input_path output_path quality) ;;;
     ret true)
    (fun e =>
       match e with
       | CalledProcessError _ err =>
           text <- decode err ;;
           print (MsgGhostscriptError text) ;;; ret false
       | _ => print (MsgError e) ;;; ret false
       end).

(** [(original_size - compressed_size) / original_size * 100]: a float
    division, which raises on a zero divisor.  The value is only printed;
    it is kept as the exact ratio of the two sizes (their common factor
    [1024 * 1024] cancels). *)
Definition percent (original_size compressed_size : N) : Q :=
  ((inject_Z (Z.of_N original_size - Z.of_N compressed_size)
    / inject_Z (Z.of_N original_size)) * 100)%Q.

Definition reduction (original_size compressed_size : N) : M Q :=
  if original_size =? 0 then raise ZeroDivisionError
  else ret (percent original_size compressed_size).

(** How one pass through the body of the [for] loop ends: the driver
    returned False; the [else] branch ran ([os.remove], then the next
    preset); or the [if] branch ran ([success = True], [break]). *)
Inductive verdict : Type :=
| DriverFailed
| NotSmaller (compressed_size : N)
| Accepted (compressed_size : N).

(** The body of the loop at lines 142-157. *)
Definition attempt (input_pdf output_pdf : string) (original_size : N)
    (quality : string) : M verdict :=
  print (MsgTrying quality) ;;;
  ok <- compress_pdf input_pdf output_pdf quality ;;
  if ok then
    compressed_size <- get_file_size output_pdf ;;
    red <- reduction original_size compressed_size ;;
    if compressed_size <? original_size then
      print (MsgSuccess quality original_size compressed_size red output_pdf) ;;;
      ret (Accepted compressed_size)
    else
      print MsgNextLevel ;;;
      os_remove output_pdf ;;;
      ret (NotSmaller compressed_size)
  else ret DriverFailed.

(** [for quality in quality_levels: ...]; the result is [Some quality] when
    the loop left through [break] (with [success = True] and the loop
    variable at [quality]), [None] when the list ran out. *)
Fixpoint fallback_loop (input_pdf output_pdf : string) (original_size : N)
    (quality_levels : list string) : M (option string) :=
  match quality_levels with
  | [] => ret None
  | quality :: rest =>
      v <- attempt input_pdf output_pdf original_size quality ;;
      match v with
      | Accepted _ => ret (Some quality)
      | _ => fallback_loop input_pdf output_pdf original_size rest
      end
  end.

Definition quality_levels : list string := ["printer"; "ebook"; "screen"].

Definition output_name (input_pdf : string) : string :=
  fst (Str.splitext (String.eqb (os_name h) "nt") input_pdf) ++ "_compressed.pdf".

Definition main (argv : list string) : M unit :=
  if negb (Nat.eqb (List.length argv) 2) then print MsgUsage
  else
    ok <- check_ghostscript ;;
    if negb ok then ret tt
    else
      let input_pdf := nth 1 argv "" in
      valid <- check_pdf input_pdf ;;
      if negb valid then print MsgInvalidInput
      else
        let output_pdf := output_name input_pdf in
        original_size <- get_file_size input_pdf ;;
        print (MsgOriginalSize original_size) ;;;
        print MsgCompressing ;;;
        accepted <- fallback_loop input_pdf output_pdf original_size quality_levels ;;
        match accepted with
        | Some _ => ret tt
        | None => print MsgNoReduction
        end.

End Program.

(** ** Sample machines and engines

    A sample engine answers the version query with [version]; for any other
    command it looks at the preset argument (position 6), answers what
    [behave] says, and writes a file of the given size at the path named by
    the output argument (position 24) when [behave] gives one. *)

Module Sample.

Definition output_of (cmd : list string) : string :=
  let a := nth 24 cmd "" in substring 13 (String.length a - 13) a.

Definition engine (version : launch) (behave : string -> launch * option N)
    (cmd : list string) (d : gmap string N) : launch * gmap string N :=
  if String.eqb (nth 1 cmd "") "--version" then (version, d)
  else
    let '(l, written) := behave (nth 6 cmd "") in
    (l, match written with Some n => <[output_of cmd := n]> d | None => d end).

Definition linux : host := Host "Linux" "posix".

Definition exit0 : launch := Exited (Completed 0 "" []).
Definition exit1 (err : list byte) : launch := Exited (Completed 1 "" err).

(** Ghostscript 10.04.0 answering [--version]. *)
Definition gs1004 : launch := Exited (Completed 0 "10.04.0" []).

(** The example of the specification, in bytes: 'printer' gives a larger
    file, 'ebook' a smaller one. *)
Definition report_engine : list string -> gmap string N -> launch * gmap string N :=
  engine gs1004 (fun preset =>
    if String.eqb preset "-dPDFSETTINGS=/printer" then (exit0, Some 10500)
    else if String.eqb preset "-dPDFSETTINGS=/ebook" then (exit0, Some 6000)
    else (exit0, Some 3000)).

(** An engine that never shrinks anything: it fails at 'printer' and writes
    the input size or more at the other presets. *)
Definition stubborn_engine : list string -> gmap string N -> launch * gmap string N :=
  engine gs1004 (fun preset =>
    if String.eqb preset "-dPDFSETTINGS=/printer" then (exit1 [], None)
    else if String.eqb preset "-dPDFSETTINGS=/ebook" then (exit0, Some 20000)
    else (exit0, Some 10000)).

(** An engine that stops with status 1 at every preset and leaves the
    12000 bytes it had written so far. *)
Definition truncating_engine : list string -> gmap string N -> launch * gmap string N :=
  engine gs1004 (fun _ => (exit1 [], Some 12000)).

(** An engine that stops with status 1 and a diagnostic that is not UTF-8
    (the byte 0xE9, an e-acute in Latin-1, then a backslash). *)
Definition latin1_engine : list string -> gmap string N -> launch * gmap string N :=
  engine gs1004 (fun _ => (exit1 [Byte.xe9; Byte.x5c], None)).

(** An engine whose executable exists but may not be run. *)
Definition forbidden_engine : list string -> gmap string N -> launch * gmap string N :=
  engine (Failed "PermissionError") (fun _ => (exit0, Some 1)).

(** The same answers as [report_engine], from an engine that also keeps a
    log file. *)
Definition logging_engine (cmd : list string) (d : gmap string N)
  : launch * gmap string N :=
  let '(l, d') := report_engine cmd d in (l, <["gs.log" := 1]> d').

(** What [report_engine] does at each preset, as a table. *)
Definition report_table (quality : string) : option N :=
  if String.eqb quality "printer" then Some 10500
  else if String.eqb quality "ebook" then Some 6000
  else if String.eqb quality "screen" then Some 3000
  else None.

Definition windows : host := Host "Windows" "nt".

(** An engine that writes only where a well-formed output argument tells
    it to: 'printer' grows the file, 'ebook' shrinks it. *)
Definition tidy_engine (cmd : list string) (d : gmap string N)
  : launch * gmap string N :=
  if String.eqb (nth 1 cmd "") "--version" then (gs1004, d)
  else if Str.startswith (nth 24 cmd "") "-sOutputFile=" then
    (exit0,
     <[output_of cmd :=
         if String.eqb (nth 6 cmd "") "-dPDFSETTINGS=/printer" then 10500
         else 6000]> d)
  else (exit1 [], d).

(** An engine that ends every compression with status 0 and writes
    nothing. *)
Definition silent_engine : list string -> gmap string N -> launch * gmap string N :=
  engine gs1004 (fun _ => (exit0, None)).

(** The answer of a patch release to the version query: a leading blank,
    a version after 10.04.0, and a non-zero exit status. *)
Definition patch_release : completed := Completed 1 " 10.04.1" [].

(** An engine that reads its input: it fails when the input path (the last
    argument) is missing, and otherwise writes a file whose size depends on
    the size of the input: 500 bytes more at 'printer', three fifths at
    'ebook', three tenths at the other presets. *)
Definition reading_engine (cmd : list string) (d : gmap string N)
  : launch * gmap string N :=
  if String.eqb (nth 1 cmd "") "--version" then (gs1004, d)
  else
    match d !! nth 25 cmd "" with
    | None => (exit1 [], d)
    | Some n =>
        (exit0,
         <[output_of cmd :=
             if String.eqb (nth 6 cmd "") "-dPDFSETTINGS=/printer" then n + 500
             else if String.eqb (nth 6 cmd "") "-dPDFSETTINGS=/ebook"
                  then n * 3 / 5
                  else n * 3 / 10]> d)
    end.

Definition start (d : gmap string N) : world := World d [] [].

(** A disk with a zero-byte file named 'empty.pdf', and the worlds of a
    run on it when the loop begins and after the driver call for
    'printer'. *)
Definition empty_disk : gmap string N := {[ "empty.pdf" := 0 ]}.

Definition empty_checked : world := World empty_disk [["gs"; "--version"]] [].

Definition empty_begun : world :=
  World empty_disk [["gs"; "--version"]] [MsgOriginalSize 0; MsgCompressing].

Definition empty_printer_done : world :=
  World (<["empty_compressed.pdf" := 10500]> empty_disk)
    [["gs"; "--version"];
     gs_command "gs" "empty.pdf" "empty_compressed.pdf" "printer"]
    [MsgOriginalSize 0; MsgCompressing; MsgTrying "printer"].

(** The disk of the specification's example and the worlds a run on it
    goes through: after the version check, when the loop begins, and after
    the driver call for 'printer'. *)
Definition report_disk : gmap string N := {[ "report.pdf" := 10000 ]}.

Definition report_checked : world :=
  World report_disk [["gs"; "--version"]] [].

Definition report_begun : world :=
  World report_disk [["gs"; "--version"]]
    [MsgOriginalSize 10000; MsgCompressing].

Definition printer_command : list string :=
  gs_command "gs" "report.pdf" "report_compressed.pdf" "printer".

Definition report_printer_done : world :=
  World (<["report_compressed.pdf" := 10500]> report_disk)
    [["gs"; "--version"]; printer_command]
    [MsgOriginalSize 10000; MsgCompressing; MsgTrying "printer"].

(** The run on the example's disk after 'printer' was rejected and its
    file deleted, and after the driver call for 'ebook'. *)
Definition report_printer_rejected : world :=
  World report_disk [["gs"; "--version"]; printer_command]
    [MsgOriginalSize 10000; MsgCompressing; MsgTrying "printer"; MsgNextLevel].

Definition report_ebook_done : world :=
  World (<["report_compressed.pdf" := 6000]> report_disk)
    [["gs"; "--version"]; printer_command;
     gs_command "gs" "report.pdf" "report_compressed.pdf" "ebook"]
    [MsgOriginalSize 10000; MsgCompressing; MsgTrying "printer"; MsgNextLevel;
     MsgTrying "ebook"].

End Sample.


(** ** Notions the properties are stated with *)

(** The path exists and its lowercased form ends with '.pdf'. *)
Definition valid_input (d : gmap string N) (p : string) : Prop :=
  is_Some (d !! p) ∧ ∃ stem, Str.lower p = stem ++ ".pdf".

(** What the loop comes to when, at preset [q], the driver fails for
    [b q = None] and succeeds leaving [n] bytes for [b q = Some n]: the
    presets are gone through in order; a failing one is skipped; a succeeding
    one ends the loop with ZeroDivisionError when the original size is zero,
    is accepted when its size is strictly below the original, and is
    skipped otherwise. *)
Fixpoint decided (b : string -> option N) (original_size : N)
    (qs : list string) : result (option string) :=
  match qs with
  | [] => Return None
  | q :: rest =>
      match b q with
      | Some n =>
          if original_size =? 0 then Raise ZeroDivisionError
          else if round53 n <? original_size then Return (Some q)
          else decided b original_size rest
      | None => decided b original_size rest
      end
  end.

Section Runs.

Variable h : host.
Variable spawn : list string -> gmap string N -> launch * gmap string N.

(** What launching the version query answers in world [w]. *)
Definition version_launch (w : world) : launch :=
  fst (spawn [gs_binary_on h (fs w); "--version"] (fs w)).

(** The argument vector of the version query in world [w]. *)
Definition version_query (w : world) : list string :=
  [gs_binary_on h (fs w); "--version"].

Variables input_pdf output_pdf : string.

(** [cmd] is the compression command for [quality], whatever binary was
    picked. *)
Definition compression_of (cmd : list string) (quality : string) : Prop :=
  ∃ gs_binary, cmd = gs_command gs_binary input_pdf output_pdf quality.

(** The attempt at [quality] begun in world [w] (it announces the preset,
    then calls the driver) has the driver succeed and leave a file whose
    size, as [get_file_size] measures it, is strictly below the original. *)
Definition shrinks (original_size : N) (quality : string) (w : world) : Prop :=
  ∃ w1 n,
    compress_pdf h spawn input_pdf output_pdf quality (say (MsgTrying quality) w)
      = (Return true, w1)
    ∧ fs w1 !! output_pdf = Some n
    ∧ round53 n < original_size.

(** The loop, begun in [w], attempted every preset of the list in order,
    none of them shrank the file, and it reached [w']. *)
Inductive tried (original_size : N) : list string -> world -> world -> Prop :=
| tried_nil w : tried original_size [] w w
| tried_cons quality rest w v w1 w2 :
    attempt h spawn input_pdf output_pdf original_size quality w = (Return v, w1) ->
    ¬ shrinks original_size quality w ->
    tried original_size rest w1 w2 ->
    tried original_size (quality :: rest) w w2.

(** The engine behaves as the table [b] says: at preset [q] the driver
    fails when [b q] is [None], and succeeds leaving [n] bytes at the
    output path when [b q] is [Some n]. *)
Definition behaves (b : string -> option N) : Prop :=
  ∀ q w, In q quality_levels ->
    ∃ w1,
      match b q with
      | Some n =>
          compress_pdf h spawn input_pdf output_pdf q w = (Return true, w1)
          ∧ fs w1 !! output_pdf = Some n
      | None =>
          compress_pdf h spawn input_pdf output_pdf q w = (Return false, w1)
      end.

(** A process that does not end with status 0 (or does not start) leaves
    no file at the output path if none was there. *)
Definition no_file_on_failure : Prop :=
  ∀ cmd d l d',
    spawn cmd d = (l, d') ->
    (∀ p, l = Exited p -> returncode p ≠ 0%Z) ->
    d !! output_pdf = None -> d' !! output_pdf = None.

End Runs.

(** ** Further notions *)

(** Every character of [s] is whitespace for [str.strip]. *)
Fixpoint only_spaces (s : string) : bool :=
  match s with
  | EmptyString => true
  | String c s' => Str.is_space c && only_spaces s'
  end.

(** No character of [s] is [c]. *)
Fixpoint free_of (c : ascii) (s : string) : bool :=
  match s with
  | EmptyString => true
  | String a s' => negb (Ascii.eqb a c) && free_of c s'
  end.

(** Every character of [s] is [c]. *)
Fixpoint only_char (c : ascii) (s : string) : bool :=
  match s with
  | EmptyString => true
  | String a s' => Ascii.eqb a c && only_char c s'
  end.

(** [s] holds no path separator: no '/', and no '\' either. *)
Definition separator_free (s : string) : bool :=
  free_of "/" s && free_of "\" s.

(** The engine changes nothing on the disk but the path its command names
    in the output argument (position 24, '-sOutputFile=...'). *)
Definition engine_writes_only_output
    (spawn : list string -> gmap string N -> launch * gmap string N) : Prop :=
  ∀ cmd d x,
    nth 24 cmd "" ≠ "-sOutputFile=" ++ x ->
    snd (spawn cmd d) !! x = d !! x.

(** A process that ends with status 0 on a compression command has left a
    file at the command's output path. *)
Definition success_writes_output
    (spawn : list string -> gmap string N -> launch * gmap string N) : Prop :=
  ∀ gs_binary input_path output_path quality d p,
    fst (spawn (gs_command gs_binary input_path output_path quality) d) = Exited p ->
    returncode p = 0%Z ->
    is_Some (snd (spawn (gs_command gs_binary input_path output_path quality) d)
               !! output_path).

(** Every diagnostic the engine writes decodes as UTF-8. *)
Definition diagnostics_decode
    (spawn : list string -> gmap string N -> launch * gmap string N) : Prop :=
  ∀ cmd d p, fst (spawn cmd d) = Exited p -> Str.utf8_valid (stderr p) = true.

(** No compression command ever ends with status 0. *)
Definition never_succeeds
    (spawn : list string -> gmap string N -> launch * gmap string N) : Prop :=
  ∀ gs_binary input_path output_path quality d p,
    fst (spawn (gs_command gs_binary input_path output_path quality) d) = Exited p ->
    returncode p ≠ 0%Z.

(** Every byte is below 128. *)
Definition ascii_only (bs : list byte) : Prop :=
  Forall (λ b, Byte.to_N b < 128) bs.

Section RunsAlong.

Variable h : host.
Variable spawn : list string -> gmap string N -> launch * gmap string N.
Variables input_pdf output_pdf : string.
Variable original_size : N.

(** In the run of the loop over [qs] begun in [w], the engine behaves as
    the table [b] says at every attempt the run makes: at the preset [q]
    being attempted the driver fails when [b q] is [None], and succeeds
    leaving [n] bytes at the output path when [b q] is [Some n]; and so on
    from the world the attempt leaves, for as long as the loop goes on.
    Nothing is asked of the engine in worlds the run does not reach, nor
    at presets it does not attempt. *)
Fixpoint behaves_along (b : string -> option N) (qs : list string) (w : world)
  : Prop :=
  match qs with
  | [] => True
  | q :: rest =>
      (∃ w1,
         match b q with
         | Some n =>
             compress_pdf h spawn input_pdf output_pdf q (say (MsgTrying q) w)
             = (Return true, w1)
             ∧ fs w1 !! output_pdf = Some n
         | None =>
             compress_pdf h spawn input_pdf output_pdf q (say (MsgTrying q) w)
             = (Return false, w1)
         end)
      ∧ (∀ v w2,
           attempt h spawn input_pdf output_pdf original_size q w = (Return v, w2) ->
           (∀ c, v ≠ Accepted c) ->
           behaves_along b rest w2)
  end.

End RunsAlong.

(** ** Strings and sizes *)

Lemma endswith_spec (s suf : string) :
  Str.endswith s suf = true <-> exists stem, s = stem ++ suf.
Proof.
  induction s as [|a s IH]; unfold Str.endswith; fold Str.endswith.
  - rewrite orb_false_r, String.eqb_eq. split.
    + intros <-. by exists "".
    + intros [[|b stem] E]; simpl in E; [done | discriminate].
  - rewrite orb_true_iff, String.eqb_eq, IH. split.
    + intros [<- | [stem ->]]; [by exists "" | by exists (String a stem)].
    + intros [[|b stem] E]; simpl in E; [by left |].
      injection E as <- ->. right. by exists stem.
Qed.

Lemma round53_small (n : N) : n < 2 ^ 53 -> round53 n = n.
Proof.
  intros H. unfold round53. apply N.ltb_lt in H. by rewrite H.
Qed.

Lemma round53_zero (n : N) : round53 n = 0 <-> n = 0.
Proof.
  split; [| by intros ->].
  unfold round53. destruct (N.ltb_spec n (2 ^ 53)) as [|Hbig]; [done |].
  intros H. exfalso.
  set (e := N.log2 n - 52) in *.
  assert (Hn : 0 < n) by (assert (0 < 2 ^ 53) by done; lia).
  assert (Hpow : 2 ^ e <= n).
  { transitivity (2 ^ N.log2 n).
    - apply N.pow_le_mono_r; [done | unfold e; lia].
    - by apply N.log2_spec. }
  assert (Hpos : 0 < 2 ^ e) by (apply N.neq_0_lt_0, N.pow_nonzero; done).
  assert (Hq : 1 <= n / 2 ^ e).
  { apply N.div_le_lower_bound; lia. }
  apply N.eq_mul_0 in H as [H | H]; [| lia].
  destruct (_ || _) in H; lia.
Qed.

Lemma log2_big (n : N) : 2 ^ 53 <= n -> 53 <= N.log2 n.
Proof.
  intros H. apply N.log2_le_mono in H.
  rewrite N.log2_pow2 in H by lia. exact H.
Qed.

Lemma round53_range (n : N) :
  2 ^ 53 <= n -> 2 ^ N.log2 n <= round53 n <= 2 ^ N.succ (N.log2 n).
Proof.
  intros Hbig. unfold round53.
  destruct (N.ltb_spec n (2 ^ 53)) as [|_]; [lia |].
  pose proof (log2_big n Hbig) as HL.
  destruct (N.log2_spec n) as [Hlo Hhi]; [lia |].
  set (L := N.log2 n) in *. set (e := L - 52).
  assert (HpL : 2 ^ L = 2 ^ 52 * 2 ^ e).
  { rewrite <- N.pow_add_r. f_equal. unfold e. lia. }
  assert (HpS : 2 ^ N.succ L = 2 ^ 53 * 2 ^ e).
  { rewrite N.pow_succ_r', HpL. change (2 ^ 53) with (2 * 2 ^ 52). lia. }
  assert (Hpe : 0 < 2 ^ e) by (apply N.neq_0_lt_0, N.pow_nonzero; lia).
  assert (Hq1 : 2 ^ 52 <= n / 2 ^ e).
  { apply N.div_le_lower_bound; lia. }
  assert (Hq2 : n / 2 ^ e < 2 ^ 53).
  { apply N.Div0.div_lt_upper_bound; lia. }
  rewrite HpL, HpS.
  destruct (_ || _); split; apply N.mul_le_mono_r; lia.
Qed.

(** Rounding to 53 bits keeps the order of the byte counts, so a measured
    size strictly below another comes from a strictly smaller file. *)
Lemma round53_monotone (n m : N) : n <= m -> round53 n <= round53 m.
Proof.
  intros Hnm.
  destruct (N.lt_ge_cases m (2 ^ 53)) as [Hm|Hm].
  { unfold round53.
    destruct (N.ltb_spec n (2 ^ 53)); [| lia].
    destruct (N.ltb_spec m (2 ^ 53)); lia. }
  destruct (N.lt_ge_cases n (2 ^ 53)) as [Hn|Hn].
  { pose proof (round53_range m Hm) as [Hlo _].
    pose proof (log2_big m Hm) as HL.
    assert (2 ^ 53 <= 2 ^ N.log2 m) by (apply N.pow_le_mono_r; lia).
    unfold round53 at 1. destruct (N.ltb_spec n (2 ^ 53)); lia. }
  pose proof (N.log2_le_mono _ _ Hnm) as HLL.
  destruct (N.eq_dec (N.log2 n) (N.log2 m)) as [Heq|Hne].
  - unfold round53.
    destruct (N.ltb_spec n (2 ^ 53)) as [|_]; [lia |].
    destruct (N.ltb_spec m (2 ^ 53)) as [|_]; [lia |].
    rewrite Heq. set (e := N.log2 m - 52).
    assert (Hpe : 0 < 2 ^ e) by (apply N.neq_0_lt_0, N.pow_nonzero; lia).
    assert (Hpe' : 2 ^ e <> 0) by lia.
    pose proof (N.Div0.div_le_mono n m (2 ^ e) Hnm) as Hq.
    pose proof (N.div_mod n (2 ^ e) Hpe') as Dn.
    pose proof (N.div_mod m (2 ^ e) Hpe') as Dm.
    pose proof (N.mod_lt n (2 ^ e) Hpe') as Rn.
    pose proof (N.mod_lt m (2 ^ e) Hpe') as Rm.
    apply N.mul_le_mono_r.
    destruct (N.eq_dec (n / 2 ^ e) (m / 2 ^ e)) as [Hqe|Hqne].
    + rewrite Hqe in *.
      assert (Hr : n mod 2 ^ e <= m mod 2 ^ e) by lia.
      set (half := 2 ^ (e - 1)) in *.
      destruct (N.ltb_spec half (n mod 2 ^ e));
        destruct (N.ltb_spec half (m mod 2 ^ e));
        destruct (N.eqb_spec (n mod 2 ^ e) half);
        destruct (N.eqb_spec (m mod 2 ^ e) half);
        destruct (N.odd (m / 2 ^ e)); cbn [orb andb]; lia.
    + destruct (_ || _); destruct (_ || _); lia.
  - pose proof (round53_range n Hn) as [_ Hhi].
    pose proof (round53_range m Hm) as [Hlo _].
    assert (2 ^ N.succ (N.log2 n) <= 2 ^ N.log2 m)
      by (apply N.pow_le_mono_r; lia).
    lia.
Qed.

Lemma measured_smaller_is_smaller (n m : N) : round53 n < round53 m -> n < m.
Proof.
  intros H. destruct (N.lt_ge_cases n m) as [|Hge]; [done |].
  apply round53_monotone in Hge. lia.
Qed.

(** Below 2^53 bytes (8 PiB) the measured sizes compare as the byte counts
    do. *)
Lemma measured_comparison_exact (n m : N) :
  n < 2 ^ 53 -> m < 2 ^ 53 -> (round53 n <? round53 m) = (n <? m).
Proof. intros Hn Hm. by rewrite !round53_small. Qed.

(** ** The functions, run *)

Lemma check_pdf_run (p : string) (w : world) :
  check_pdf p w
  = (Return (exists_on (fs w) p && Str.endswith (Str.lower p) ".pdf"), w).
Proof.
  unfold check_pdf, bind, read_disk, ret.
  by destruct (exists_on (fs w) p).
Qed.

Lemma get_file_size_run (p : string) (w : world) :
  get_file_size p w
  = match fs w !! p with
    | Some n => (Return (round53 n), w)
    | None => (Raise FileNotFoundError, w)
    end.
Proof.
  unfold get_file_size, bind, read_disk, ret, raise.
  by destruct (fs w !! p).
Qed.

Section RunLemmas.

Variable h : host.
Variable spawn : list string -> gmap string N -> launch * gmap string N.

Lemma check_ghostscript_run (w : world) :
  check_ghostscript h spawn w
  = let cmd := version_query h w in
    let w1 := World (snd (spawn cmd (fs w))) (procs w ++ [cmd]) (console w) in
    match version_launch h spawn w with
    | Exited p =>
        if Str.startswith (Str.strip (stdout p)) "10.04" then (Return true, w1)
        else (Return false, say (MsgVersionWarning (Str.strip (stdout p))) w1)
    | NotFound => (Return false, say MsgNotFound w1)
    | Failed what => (Return false, say (MsgVersionError (OtherError what)) w1)
    end.
Proof.
  cbv beta iota zeta delta
    [check_ghostscript version_launch version_query try_except bind
     get_gs_binary read_disk ret subprocess_run print fst snd andb].
  destruct (spawn _ (fs w)) as [l d].
  destruct l as [p| |what]; [| done | done].
  by destruct (Str.startswith _ _).
Qed.

Lemma compress_pdf_run (input_path output_path quality : string) (w : world) :
  compress_pdf h spawn input_path output_path quality w
  = let cmd := gs_command (gs_binary_on h (fs w)) input_path output_path quality in
    let w1 := World (snd (spawn cmd (fs w))) (procs w ++ [cmd]) (console w) in
    match fst (spawn cmd (fs w)) with
    | Exited p =>
        if (returncode p =? 0)%Z then (Return true, w1)
        else if Str.utf8_valid (stderr p)
             then (Return false, say (MsgGhostscriptError (stderr p)) w1)
             else (Raise UnicodeDecodeError, w1)
    | NotFound => (Return false, say (MsgError FileNotFoundError) w1)
    | Failed what => (Return false, say (MsgError (OtherError what)) w1)
    end.
Proof.
  cbv beta iota zeta delta
    [compress_pdf try_except bind get_gs_binary read_disk ret subprocess_run
     print decode raise fst snd andb].
  destruct (spawn _ (fs w)) as [l d].
  destruct l as [p| |what]; [| done | done].
  destruct (returncode p =? 0)%Z; cbn [negb]; [done |].
  by destruct (Str.utf8_valid (stderr p)).
Qed.

Lemma compress_pdf_effects (input_path output_path quality : string)
    (w : world) (r : result bool) (w1 : world) :
  compress_pdf h spawn input_path output_path quality w = (r, w1) ->
  procs w1
  = (procs w
     ++ [gs_command (gs_binary_on h (fs w)) input_path output_path quality])%list
  ∧ fs w1
    = snd (spawn (gs_command (gs_binary_on h (fs w)) input_path output_path quality)
             (fs w)).
Proof.
  rewrite compress_pdf_run. cbv zeta.
  destruct (fst (spawn _ (fs w))) as [p| |what].
  - destruct (returncode p =? 0)%Z; [| destruct (Str.utf8_valid (stderr p))];
      by intros [= <- <-].
  - by intros [= <- <-].
  - by intros [= <- <-].
Qed.

Lemma attempt_run (input_pdf output_pdf : string) (original_size : N)
    (quality : string) (w : world) :
  attempt h spawn input_pdf output_pdf original_size quality w
  = match compress_pdf h spawn input_pdf output_pdf quality
            (say (MsgTrying quality) w) with
    | (Return true, w1) =>
        match fs w1 !! output_pdf with
        | Some n =>
            if original_size =? 0 then (Raise ZeroDivisionError, w1)
            else if round53 n <? original_size then
              (Return (Accepted (round53 n)),
               say (MsgSuccess quality original_size (round53 n)
                      (percent original_size (round53 n)) output_pdf) w1)
            else
              (Return (NotSmaller (round53 n)),
               World (delete output_pdf (fs w1)) (procs w1)
                     (console w1 ++ [MsgNextLevel]))
        | None => (Raise FileNotFoundError, w1)
        end
    | (Return false, w1) => (Return DriverFailed, w1)
    | (Raise e, w1) => (Raise e, w1)
    end.
Proof.
  unfold attempt, bind at 1 2, print.
  destruct (compress_pdf _ _ _ _ _ _) as [[[|]|e] w1]; [| done | done].
  unfold bind at 1. rewrite get_file_size_run.
  destruct (fs w1 !! output_pdf) as [n|] eqn:En; [| done].
  unfold bind, reduction, raise, ret, print, os_remove, say.
  destruct (original_size =? 0); [done |].
  destruct (round53 n <? original_size); [done |].
  cbn [fs procs console]. by rewrite En.
Qed.

Lemma main_run (prog p : string) (w : world) :
  main h spawn [prog; p] w
  = match check_ghostscript h spawn w with
    | (Return true, w1) =>
        if exists_on (fs w1) p && Str.endswith (Str.lower p) ".pdf" then
          match fs w1 !! p with
          | Some n =>
              match fallback_loop h spawn p (output_name h p) (round53 n)
                      quality_levels
                      (say MsgCompressing (say (MsgOriginalSize (round53 n)) w1))
              with
              | (Return (Some _), w3) => (Return tt, w3)
              | (Return None, w3) => (Return tt, say MsgNoReduction w3)
              | (Raise e, w3) => (Raise e, w3)
              end
          | None => (Raise FileNotFoundError, w1)
          end
        else (Return tt, say MsgInvalidInput w1)
    | (Return false, w1) => (Return tt, w1)
    | (Raise e, w1) => (Raise e, w1)
    end.
Proof.
  unfold main. cbn [List.length Nat.eqb negb nth].
  unfold bind at 1.
  destruct (check_ghostscript h spawn w) as [[[|]|e] w1]; [| done | done].
  cbn [negb]. unfold bind at 1. rewrite check_pdf_run.
  destruct (_ && _); cbn [negb]; [| done].
  unfold bind at 1. rewrite get_file_size_run.
  destruct (fs w1 !! p) as [n|]; [| done].
  unfold bind at 1 2 3, print.
  destruct (fallback_loop _ _ _ _ _ _ _) as [[[q|]|e] w3]; done.
Qed.

End RunLemmas.

(** ** Input validation *)

Lemma valid_input_decided (d : gmap string N) (p : string) :
  exists_on d p && Str.endswith (Str.lower p) ".pdf" = true <-> valid_input d p.
Proof.
  unfold valid_input, exists_on.
  rewrite andb_true_iff, endswith_spec.
  destruct (d !! p) as [n|]; split.
  - intros [_ H]. split; [by exists n | done].
  - by intros [_ H].
  - by intros [? _].
  - by intros [[n Hn] _].
Qed.

(** C7. For every path and every disk, [check_pdf] answers True exactly when
    the path exists on the disk and its lowercased form ends with '.pdf'
    (nothing of the file's content is read, and the world is left as it
    was); when it answers False in a run of [main] that got past the engine
    check, [main] prints the invalid-input message and returns at once. *)
Theorem input_validator_accepts_iff (p : string) (w : world) :
  (check_pdf p w = (Return true, w) <-> valid_input (fs w) p)
  ∧ (check_pdf p w = (Return false, w) <-> ¬ valid_input (fs w) p)
  ∧ (∀ h spawn prog w0,
       check_ghostscript h spawn w0 = (Return true, w) ->
       ¬ valid_input (fs w) p ->
       main h spawn [prog; p] w0 = (Return tt, say MsgInvalidInput w)).
Proof.
  rewrite check_pdf_run.
  pose proof (valid_input_decided (fs w) p) as Hdec.
  destruct (exists_on (fs w) p && Str.endswith (Str.lower p) ".pdf") eqn:E.
  - assert (Hyes : valid_input (fs w) p) by by apply Hdec.
    split; [done |]. split; [| by intros h spawn prog w0 _ Hn].
    split; [discriminate | by intros Hn].
  - assert (Hno : ¬ valid_input (fs w) p).
    { intros Hv. apply Hdec in Hv. discriminate. }
    split; [| split; [done |]].
    + split; [discriminate | by intros Hv].
    + intros h spawn prog w0 Hgs _.
      by rewrite main_run, Hgs, E.
Qed.

Lemma input_validator_accepts_iff_witness :
  check_ghostscript Sample.linux Sample.report_engine (Sample.start ∅)
  = (Return true, World ∅ [["gs"; "--version"]] [])
  ∧ ¬ valid_input ∅ "ghost.pdf"
  ∧ main Sample.linux Sample.report_engine ["pdf_compressor.py"; "ghost.pdf"]
      (Sample.start ∅)
    = (Return tt, World ∅ [["gs"; "--version"]] [MsgInvalidInput]).
Proof.
  assert (Hgs : check_ghostscript Sample.linux Sample.report_engine (Sample.start ∅)
                = (Return true, World ∅ [["gs"; "--version"]] []))
    by (vm_compute; reflexivity).
  assert (Hno : ¬ valid_input (fs (World ∅ [["gs"; "--version"]] [])) "ghost.pdf").
  { intros [[n Hn] _]. vm_compute in Hn. discriminate. }
  split; [exact Hgs |]. split; [exact Hno |].
  exact (proj2 (proj2 (input_validator_accepts_iff "ghost.pdf"
                         (World ∅ [["gs"; "--version"]] [])))
           Sample.linux Sample.report_engine "pdf_compressor.py" (Sample.start ∅)
           Hgs Hno).
Defined.

(** ** The engine version check *)

Section VersionCheck.

Variable h : host.
Variable spawn : list string -> gmap string N -> launch * gmap string N.

Lemma check_ghostscript_procs (w : world) :
  procs (snd (check_ghostscript h spawn w)) = (procs w ++ [version_query h w])%list.
Proof.
  rewrite check_ghostscript_run. cbv zeta.
  destruct (version_launch h spawn w) as [p| |what]; try done.
  by destruct (Str.startswith _ _).
Qed.

Lemma check_ghostscript_total (w : world) :
  fst (check_ghostscript h spawn w) = Return true
  ∨ fst (check_ghostscript h spawn w) = Return false.
Proof.
  rewrite check_ghostscript_run. cbv zeta.
  destruct (version_launch h spawn w) as [p| |what]; try by right.
  destruct (Str.startswith _ _); [by left | by right].
Qed.

End VersionCheck.

(** C6, as amended. The version check fails in exactly three cases: no such
    executable (FileNotFoundError), any other exception raised while the
    engine is launched or its output read, and a version text that, once
    stripped, does not start with '10.04'.  The check never raises, and
    whenever it fails [main] returns having started the version query and
    nothing else: no compression is attempted. *)
Theorem version_check_failure_cases
    (h : host) (spawn : list string -> gmap string N -> launch * gmap string N)
    (w : world) :
  (fst (check_ghostscript h spawn w) = Return false <->
     version_launch h spawn w = NotFound
     ∨ (∃ what, version_launch h spawn w = Failed what)
     ∨ (∃ p, version_launch h spawn w = Exited p
             ∧ Str.startswith (Str.strip (stdout p)) "10.04" = false))
  ∧ (fst (check_ghostscript h spawn w) ≠ Return false ->
     fst (check_ghostscript h spawn w) = Return true)
  ∧ (fst (check_ghostscript h spawn w) = Return false ->
     ∀ prog p,
       main h spawn [prog; p] w = (Return tt, snd (check_ghostscript h spawn w))
       ∧ procs (snd (main h spawn [prog; p] w))
         = (procs w ++ [version_query h w])%list).
Proof.
  split; [| split].
  - rewrite check_ghostscript_run. cbv zeta.
    destruct (version_launch h spawn w) as [p| |what].
    + destruct (Str.startswith (Str.strip (stdout p)) "10.04") eqn:E; cbn [fst].
      * split; [done |]. intros [? | [[? ?] | [p' [[= <-] E']]]]; try done.
        rewrite E in E'. discriminate.
      * split; [| done]. intros _. right. right. by exists p.
    + split; [| done]. intros _. by left.
    + split; [| done]. intros _. right. left. by exists what.
  - intros Hne. by destruct (check_ghostscript_total h spawn w).
  - intros Hfalse prog p.
    assert (Hmain : main h spawn [prog; p] w
                    = (Return tt, snd (check_ghostscript h spawn w))).
    { rewrite main_run.
      destruct (check_ghostscript h spawn w) as [[[|]|e] w1]; cbn in Hfalse |- *;
        by try discriminate. }
    split; [exact Hmain |].
    rewrite Hmain. cbn [snd]. apply check_ghostscript_procs.
Qed.

Lemma version_check_failure_cases_witness :
  fst (check_ghostscript Sample.linux Sample.forbidden_engine (Sample.start ∅))
  = Return false
  ∧ main Sample.linux Sample.forbidden_engine ["pdf_compressor.py"; "a.pdf"]
      (Sample.start ∅)
    = (Return tt,
       World ∅ [["gs"; "--version"]]
         [MsgVersionError (OtherError "PermissionError")]).
Proof.
  assert (Hf : fst (check_ghostscript Sample.linux Sample.forbidden_engine
                      (Sample.start ∅)) = Return false)
    by (vm_compute; reflexivity).
  split; [exact Hf |].
  exact (proj1 (proj2 (proj2 (version_check_failure_cases Sample.linux
                                Sample.forbidden_engine (Sample.start ∅)))
                  Hf "pdf_compressor.py" "a.pdf")).
Defined.

(** C6, as stated, fails: an executable that exists but may not be run makes
    [subprocess.run] raise PermissionError; the check fails although the
    engine was found and no version text was ever compared. *)
Lemma version_check_third_failure_case :
  ¬ (∀ (h : host) (spawn : list string -> gmap string N -> launch * gmap string N)
       (w : world),
       fst (check_ghostscript h spawn w) = Return false <->
         version_launch h spawn w = NotFound
         ∨ (∃ p, version_launch h spawn w = Exited p
                 ∧ Str.startswith (Str.strip (stdout p)) "10.04" = false)).
Proof.
  intros H.
  destruct (proj1 (H Sample.linux Sample.forbidden_engine (Sample.start ∅)))
    as [E | [p [E _]]].
  - vm_compute. reflexivity.
  - vm_compute in E. discriminate.
  - vm_compute in E. discriminate.
Qed.

(** C1, as amended. When the input path fails [check_pdf] (evaluated, as
    [main] does, after the engine check), [main] returns normally, the one
    call of [subprocess.run] it has made is the version query, no
    compression command is ever started, and the disk is as the version
    query left it: [main] itself creates no file. *)
Theorem invalid_input_starts_no_compression
    (h : host) (spawn : list string -> gmap string N -> launch * gmap string N)
    (prog p : string) (w : world) :
  fst (check_pdf p (snd (check_ghostscript h spawn w))) = Return false ->
  ∃ w',
    main h spawn [prog; p] w = (Return tt, w')
    ∧ procs w' = (procs w ++ [version_query h w])%list
    ∧ fs w' = fs (snd (check_ghostscript h spawn w)).
Proof.
  rewrite check_pdf_run. cbn [fst]. intros [= Hinvalid].
  pose proof (check_ghostscript_procs h spawn w) as Hprocs.
  pose proof (check_ghostscript_total h spawn w) as Htotal.
  rewrite main_run.
  destruct (check_ghostscript h spawn w) as [[[|]|e] w1];
    cbn [fst snd] in Hinvalid, Hprocs, Htotal |- *.
  - rewrite Hinvalid. by exists (say MsgInvalidInput w1).
  - by exists w1.
  - by destruct Htotal.
Qed.

Lemma invalid_input_starts_no_compression_witness :
  fst (check_pdf "ghost.pdf"
         (snd (check_ghostscript Sample.linux Sample.report_engine (Sample.start ∅))))
  = Return false
  ∧ ∃ w',
      main Sample.linux Sample.report_engine ["pdf_compressor.py"; "ghost.pdf"]
        (Sample.start ∅) = (Return tt, w')
      ∧ procs w'
        = (procs (Sample.start ∅)
           ++ [version_query Sample.linux (Sample.start ∅)])%list
      ∧ fs w'
        = fs (snd (check_ghostscript Sample.linux Sample.report_engine
                     (Sample.start ∅))).
Proof.
  split; [vm_compute; reflexivity |].
  apply (invalid_input_starts_no_compression Sample.linux Sample.report_engine
           "pdf_compressor.py" "ghost.pdf" (Sample.start ∅)).
  vm_compute; reflexivity.
Defined.

(** C1, as stated, fails: for the missing file 'ghost.pdf' the version query
    has been started by the time the path is checked. *)
Lemma version_query_precedes_validation :
  ¬ (∀ (h : host) (spawn : list string -> gmap string N -> launch * gmap string N)
       (prog p : string) (w : world),
       fst (check_pdf p w) = Return false ->
       procs (snd (main h spawn [prog; p] w)) = procs w).
Proof.
  intros H.
  specialize (H Sample.linux Sample.report_engine "pdf_compressor.py" "ghost.pdf"
                (Sample.start ∅)).
  assert (E : fst (check_pdf "ghost.pdf" (Sample.start ∅)) = Return false)
    by (vm_compute; reflexivity).
  specialize (H E). vm_compute in H. discriminate.
Qed.

(** ** The compression driver *)

Lemma quality_settings_unknown (quality : string) :
  ¬ In quality ["printer"; "ebook"; "screen"] ->
  quality_settings !! quality = None.
Proof.
  intros Hnot. unfold quality_settings.
  rewrite !lookup_insert_ne, lookup_empty; [done | | |];
    intros <-; apply Hnot; cbn; tauto.
Qed.

(** C10. For every quality string other than 'printer', 'ebook' and
    'screen' the driver builds the very command it builds for 'printer'
    (its preset argument is '-dPDFSETTINGS=/printer'), and so behaves in
    every world exactly as it does for 'printer': the argument is never
    rejected. *)
Theorem unknown_quality_uses_printer
    (h : host) (spawn : list string -> gmap string N -> launch * gmap string N)
    (input_path output_path quality : string) (w : world) :
  ¬ In quality ["printer"; "ebook"; "screen"] ->
  (∀ gs_binary,
     gs_command gs_binary input_path output_path quality
     = gs_command gs_binary input_path output_path "printer")
  ∧ (∀ gs_binary,
       nth 6 (gs_command gs_binary input_path output_path quality) ""
       = "-dPDFSETTINGS=/printer")
  ∧ compress_pdf h spawn input_path output_path quality w
    = compress_pdf h spawn input_path output_path "printer" w.
Proof.
  intros Hnot.
  assert (Hcmd : ∀ gs_binary,
             gs_command gs_binary input_path output_path quality
             = gs_command gs_binary input_path output_path "printer").
  { intros gs_binary. unfold gs_command.
    by rewrite (quality_settings_unknown quality Hnot). }
  split; [exact Hcmd |]. split.
  - intros gs_binary. by rewrite Hcmd.
  - by rewrite !compress_pdf_run, Hcmd.
Qed.

Lemma unknown_quality_uses_printer_witness :
  ¬ In "prepress" ["printer"; "ebook"; "screen"]
  ∧ compress_pdf Sample.linux Sample.report_engine "a.pdf" "b.pdf" "prepress"
      (Sample.start ∅)
    = compress_pdf Sample.linux Sample.report_engine "a.pdf" "b.pdf" "printer"
        (Sample.start ∅).
Proof.
  assert (Hnot : ¬ In "prepress" ["printer"; "ebook"; "screen"]).
  { cbn. intros [H | [H | [H | []]]]; discriminate. }
  split; [exact Hnot |].
  exact (proj2 (proj2 (unknown_quality_uses_printer Sample.linux
                         Sample.report_engine "a.pdf" "b.pdf" "prepress"
                         (Sample.start ∅) Hnot))).
Defined.

(** ** One attempt *)

Section Attempts.

Variable h : host.
Variable spawn : list string -> gmap string N -> launch * gmap string N.
Variables input_pdf output_pdf : string.
Variable original_size : N.

Lemma attempt_effects (quality : string) (w : world) (r : result verdict)
    (w' : world) :
  attempt h spawn input_pdf output_pdf original_size quality w = (r, w') ->
  procs w'
  = (procs w
     ++ [gs_command (gs_binary_on h (fs w)) input_pdf output_pdf quality])%list.
Proof.
  rewrite attempt_run.
  destruct (compress_pdf _ _ _ _ _ _) as [rb w1] eqn:Ec.
  apply compress_pdf_effects in Ec as [Hp _]. cbn [say fs procs] in Hp.
  destruct rb as [[|]|e]; try by intros [= <- <-].
  destruct (fs w1 !! output_pdf) as [n|]; [| by intros [= <- <-]].
  destruct (original_size =? 0); [by intros [= <- <-] |].
  destruct (round53 n <? original_size); by intros [= <- <-].
Qed.

Lemma attempt_accepted (quality : string) (w : world) (c : N) (w' : world) :
  attempt h spawn input_pdf output_pdf original_size quality w
  = (Return (Accepted c), w') ->
  shrinks h spawn input_pdf output_pdf original_size quality w
  ∧ c < original_size
  ∧ ∃ n, fs w' !! output_pdf = Some n ∧ round53 n = c.
Proof.
  rewrite attempt_run. unfold shrinks.
  destruct (compress_pdf _ _ _ _ _ _) as [[[|]|e] w1]; try done.
  destruct (fs w1 !! output_pdf) as [n|] eqn:En; [| done].
  destruct (original_size =? 0); [done |].
  destruct (N.ltb_spec (round53 n) original_size) as [Hlt|]; [| done].
  intros [= <- <-]. split; [by exists w1, n |]. split; [done |].
  by exists n.
Qed.

(** An accepted output has fewer bytes than the input it was compared
    with. *)
Lemma accepted_output_has_fewer_bytes (original_bytes : N) (quality : string)
    (w : world) (c : N) (w' : world) :
  original_size = round53 original_bytes ->
  attempt h spawn input_pdf output_pdf original_size quality w
  = (Return (Accepted c), w') ->
  ∃ n, fs w' !! output_pdf = Some n ∧ n < original_bytes.
Proof.
  intros Ho Ha. destruct (attempt_accepted _ _ _ _ Ha) as (_ & Hlt & n & Hn & <-).
  exists n. split; [done |]. apply measured_smaller_is_smaller. by rewrite <- Ho.
Qed.

Lemma attempt_not_accepted (quality : string) (w : world) (v : verdict)
    (w' : world) :
  attempt h spawn input_pdf output_pdf original_size quality w = (Return v, w') ->
  (∀ c, v ≠ Accepted c) ->
  ¬ shrinks h spawn input_pdf output_pdf original_size quality w.
Proof.
  rewrite attempt_run. intros Ha Hv (w1 & n & Hc & Hn & Hlt).
  rewrite Hc, Hn in Ha.
  destruct (original_size =? 0); [done |].
  apply N.ltb_lt in Hlt. rewrite Hlt in Ha.
  injection Ha as <- _. by apply (Hv (round53 n)).
Qed.

End Attempts.

(** ** The fallback loop *)

Section Loop.

Variable h : host.
Variable spawn : list string -> gmap string N -> launch * gmap string N.
Variables input_pdf output_pdf : string.
Variable original_size : N.

Lemma fallback_loop_cons (quality : string) (rest : list string) (w : world) :
  fallback_loop h spawn input_pdf output_pdf original_size (quality :: rest) w
  = match attempt h spawn input_pdf output_pdf original_size quality w with
    | (Return (Accepted _), w1) => (Return (Some quality), w1)
    | (Return _, w1) =>
        fallback_loop h spawn input_pdf output_pdf original_size rest w1
    | (Raise e, w1) => (Raise e, w1)
    end.
Proof.
  cbn [fallback_loop]. unfold bind at 1.
  by destruct (attempt _ _ _ _ _ _ _) as [[[]|e] w1].
Qed.

Lemma fallback_loop_accepts (qs : list string) :
  ∀ (w : world) (q : string) (w' : world),
    fallback_loop h spawn input_pdf output_pdf original_size qs w
    = (Return (Some q), w') ->
    ∃ pre post wq c cmds,
      qs = (pre ++ q :: post)%list
      ∧ tried h spawn input_pdf output_pdf original_size pre w wq
      ∧ shrinks h spawn input_pdf output_pdf original_size q wq
      ∧ attempt h spawn input_pdf output_pdf original_size q wq
        = (Return (Accepted c), w')
      ∧ c < original_size
      ∧ procs w' = (procs w ++ cmds)%list
      ∧ Forall2 (compression_of input_pdf output_pdf) cmds (pre ++ [q])%list.
Proof.
  induction qs as [|q0 rest IH]; intros w q w' H; [discriminate |].
  rewrite fallback_loop_cons in H.
  destruct (attempt _ _ _ _ _ _ _) as [[v|e] w1] eqn:Ea; [| discriminate].
  pose proof (attempt_effects _ _ _ _ _ _ _ _ _ Ea) as Hp.
  assert (Hcmd : compression_of input_pdf output_pdf
                   (gs_command (gs_binary_on h (fs w)) input_pdf output_pdf q0) q0)
    by by eexists.
  assert (Hgo : (∀ c, v ≠ Accepted c) ->
            fallback_loop h spawn input_pdf output_pdf original_size rest w1
            = (Return (Some q), w') ->
            ∃ pre post wq c cmds,
              (q0 :: rest = pre ++ q :: post)%list
              ∧ tried h spawn input_pdf output_pdf original_size pre w wq
              ∧ shrinks h spawn input_pdf output_pdf original_size q wq
              ∧ attempt h spawn input_pdf output_pdf original_size q wq
                = (Return (Accepted c), w')
              ∧ c < original_size
              ∧ procs w' = (procs w ++ cmds)%list
              ∧ Forall2 (compression_of input_pdf output_pdf) cmds
                  (pre ++ [q])%list).
  { intros Hv Hrest.
    destruct (IH _ _ _ Hrest)
      as (pre & post & wq & c & cmds & -> & Ht & Hs & Hq & Hlt & Hprocs & Hall).
    exists (q0 :: pre), post, wq, c,
      (gs_command (gs_binary_on h (fs w)) input_pdf output_pdf q0 :: cmds).
    repeat split; try done.
    - eapply tried_cons; [exact Ea | | exact Ht].
      by eapply attempt_not_accepted.
    - by rewrite Hprocs, Hp, <- app_assoc.
    - by constructor. }
  destruct v as [|c'|c].
  - by apply Hgo.
  - by apply Hgo.
  - injection H as <- <-.
    destruct (attempt_accepted _ _ _ _ _ _ _ _ _ Ea) as (Hs & Hlt & _).
    exists [], rest, w, c,
      [gs_command (gs_binary_on h (fs w)) input_pdf output_pdf q0].
    repeat split; try done.
    + constructor.
    + by repeat constructor.
Qed.

End Loop.

(** C2. Whenever the loop over ['printer'; 'ebook'; 'screen'] accepts a
    preset [q], that preset is the first of the list that shrinks the file:
    every preset before [q] was attempted, in order, and none of them had a
    successful driver call with an output strictly smaller than the
    original, while [q] had one.  The loop ends in the world the accepting
    attempt leaves, and the compression commands it has started are those
    of the presets up to and including [q], one each: no preset after [q]
    is attempted. *)
Theorem accepted_is_first_success
    (h : host) (spawn : list string -> gmap string N -> launch * gmap string N)
    (input_pdf output_pdf : string) (original_size : N)
    (w : world) (q : string) (w' : world) :
  fallback_loop h spawn input_pdf output_pdf original_size quality_levels w
  = (Return (Some q), w') ->
  ∃ pre post wq c cmds,
    quality_levels = (pre ++ q :: post)%list
    ∧ tried h spawn input_pdf output_pdf original_size pre w wq
    ∧ shrinks h spawn input_pdf output_pdf original_size q wq
    ∧ attempt h spawn input_pdf output_pdf original_size q wq
      = (Return (Accepted c), w')
    ∧ c < original_size
    ∧ procs w' = (procs w ++ cmds)%list
    ∧ Forall2 (compression_of input_pdf output_pdf) cmds (pre ++ [q])%list.
Proof. apply fallback_loop_accepts. Qed.

Lemma accepted_is_first_success_witness :
  fallback_loop Sample.linux Sample.report_engine "report.pdf"
    "report_compressed.pdf" 10000 quality_levels
    (Sample.start {[ "report.pdf" := 10000 ]})
  = (Return (Some "ebook"),
     World {[ "report.pdf" := 10000; "report_compressed.pdf" := 6000 ]}
       [gs_command "gs" "report.pdf" "report_compressed.pdf" "printer";
        gs_command "gs" "report.pdf" "report_compressed.pdf" "ebook"]
       [MsgTrying "printer"; MsgNextLevel; MsgTrying "ebook";
        MsgSuccess "ebook" 10000 6000 (percent 10000 6000)
          "report_compressed.pdf"])
  ∧ ∃ pre post wq c cmds,
      quality_levels = (pre ++ "ebook" :: post)%list
      ∧ tried Sample.linux Sample.report_engine "report.pdf"
          "report_compressed.pdf" 10000 pre
          (Sample.start {[ "report.pdf" := 10000 ]}) wq
      ∧ shrinks Sample.linux Sample.report_engine "report.pdf"
          "report_compressed.pdf" 10000 "ebook" wq
      ∧ attempt Sample.linux Sample.report_engine "report.pdf"
          "report_compressed.pdf" 10000 "ebook" wq
        = (Return (Accepted c),
           World {[ "report.pdf" := 10000; "report_compressed.pdf" := 6000 ]}
             [gs_command "gs" "report.pdf" "report_compressed.pdf" "printer";
              gs_command "gs" "report.pdf" "report_compressed.pdf" "ebook"]
             [MsgTrying "printer"; MsgNextLevel; MsgTrying "ebook";
              MsgSuccess "ebook" 10000 6000 (percent 10000 6000)
                "report_compressed.pdf"])
      ∧ c < 10000
      ∧ procs (World {[ "report.pdf" := 10000; "report_compressed.pdf" := 6000 ]}
                 [gs_command "gs" "report.pdf" "report_compressed.pdf" "printer";
                  gs_command "gs" "report.pdf" "report_compressed.pdf" "ebook"]
                 [MsgTrying "printer"; MsgNextLevel; MsgTrying "ebook";
                  MsgSuccess "ebook" 10000 6000 (percent 10000 6000)
                    "report_compressed.pdf"])
        = (procs (Sample.start {[ "report.pdf" := 10000 ]}) ++ cmds)%list
      ∧ Forall2 (compression_of "report.pdf" "report_compressed.pdf") cmds
          (pre ++ ["ebook"])%list.
Proof.
  assert (Hrun :
    fallback_loop Sample.linux Sample.report_engine "report.pdf"
      "report_compressed.pdf" 10000 quality_levels
      (Sample.start {[ "report.pdf" := 10000 ]})
    = (Return (Some "ebook"),
       World {[ "report.pdf" := 10000; "report_compressed.pdf" := 6000 ]}
         [gs_command "gs" "report.pdf" "report_compressed.pdf" "printer";
          gs_command "gs" "report.pdf" "report_compressed.pdf" "ebook"]
         [MsgTrying "printer"; MsgNextLevel; MsgTrying "ebook";
          MsgSuccess "ebook" 10000 6000 (percent 10000 6000)
            "report_compressed.pdf"]))
    by (vm_compute; reflexivity).
  split; [exact Hrun |].
  exact (accepted_is_first_success _ _ _ _ _ _ _ _ Hrun).
Defined.

(** ** The output file *)

Section OutputFile.

Variable h : host.
Variable spawn : list string -> gmap string N -> launch * gmap string N.
Variables input_pdf output_pdf : string.
Variable original_size : N.

Lemma fallback_loop_commands (qs : list string) :
  ∀ (w : world) (r : result (option string)) (w' : world),
    fallback_loop h spawn input_pdf output_pdf original_size qs w = (r, w') ->
    ∃ cmds,
      procs w' = (procs w ++ cmds)%list
      ∧ Forall (λ cmd, ∃ q, compression_of input_pdf output_pdf cmd q) cmds.
Proof.
  induction qs as [|q0 rest IH]; intros w r w' H.
  - injection H as <- <-. exists []. by rewrite app_nil_r.
  - rewrite fallback_loop_cons in H.
    destruct (attempt _ _ _ _ _ _ _) as [[v|e] w1] eqn:Ea.
    + pose proof (attempt_effects _ _ _ _ _ _ _ _ _ Ea) as Hp.
      assert (Hone : Forall (λ cmd, ∃ q, compression_of input_pdf output_pdf cmd q)
                       [gs_command (gs_binary_on h (fs w)) input_pdf output_pdf q0]).
      { repeat constructor. exists q0. by eexists. }
      assert (Hgo : fallback_loop h spawn input_pdf output_pdf original_size rest w1
                    = (r, w') ->
                ∃ cmds,
                  procs w' = (procs w ++ cmds)%list
                  ∧ Forall (λ cmd, ∃ q, compression_of input_pdf output_pdf cmd q)
                      cmds).
      { intros Hrest. destruct (IH _ _ _ Hrest) as (cmds & Hprocs & Hall).
        eexists (_ :: cmds). split.
        - by rewrite Hprocs, Hp, <- app_assoc.
        - constructor; [| done]. exists q0. by eexists. }
      destruct v; [by apply Hgo | by apply Hgo |].
      injection H as <- <-. by eexists.
    + injection H as <- <-.
      pose proof (attempt_effects _ _ _ _ _ _ _ _ _ Ea) as Hp.
      eexists. split; [exact Hp |]. repeat constructor. exists q0. by eexists.
Qed.

Lemma compress_pdf_failure_keeps_absent (quality : string) (w w1 : world) :
  no_file_on_failure spawn output_pdf ->
  fs w !! output_pdf = None ->
  compress_pdf h spawn input_pdf output_pdf quality w = (Return false, w1) ->
  fs w1 !! output_pdf = None.
Proof.
  intros Hengine Habsent. rewrite compress_pdf_run. cbv zeta.
  destruct (spawn _ (fs w)) as [l d] eqn:Es. cbn [fst snd].
  specialize (Hengine _ _ _ _ Es).
  destruct l as [p| |what].
  - destruct (Z.eqb_spec (returncode p) 0) as [|Hrc]; [done |].
    destruct (Str.utf8_valid (stderr p)); [| done].
    intros [= <-]. cbn [say fs]. apply Hengine; [| done].
    by intros p' [= <-].
  - intros [= <-]. cbn [say fs]. by apply Hengine.
  - intros [= <-]. cbn [say fs]. by apply Hengine.
Qed.

Lemma attempt_keeps_absent (quality : string) (w : world) (v : verdict)
    (w1 : world) :
  no_file_on_failure spawn output_pdf ->
  fs w !! output_pdf = None ->
  attempt h spawn input_pdf output_pdf original_size quality w = (Return v, w1) ->
  (∀ c, v ≠ Accepted c) ->
  fs w1 !! output_pdf = None.
Proof.
  intros Hengine Habsent. rewrite attempt_run.
  destruct (compress_pdf _ _ _ _ _ _) as [[[|]|e] wc] eqn:Ec; [| | done].
  - destruct (fs wc !! output_pdf) as [n|]; [| done].
    destruct (original_size =? 0); [done |].
    destruct (round53 n <? original_size).
    + intros [= <- <-] Hv. by destruct (Hv (round53 n)).
    + intros [= <- <-] _. cbn [fs]. apply lookup_delete_eq.
  - intros [= <- <-] _.
    by apply (compress_pdf_failure_keeps_absent quality (say (MsgTrying quality) w)).
Qed.

Lemma fallback_loop_exhausted_absent (qs : list string) :
  ∀ (w w' : world),
    no_file_on_failure spawn output_pdf ->
    fs w !! output_pdf = None ->
    fallback_loop h spawn input_pdf output_pdf original_size qs w
    = (Return None, w') ->
    fs w' !! output_pdf = None.
Proof.
  induction qs as [|q0 rest IH]; intros w w' Hengine Habsent H.
  - by injection H as <-.
  - rewrite fallback_loop_cons in H.
    destruct (attempt _ _ _ _ _ _ _) as [[v|e] w1] eqn:Ea; [| done].
    assert (Hv : (∀ c, v ≠ Accepted c) -> fs w' !! output_pdf = None).
    { intros Hv. assert (Hw1 := attempt_keeps_absent _ _ _ _ Hengine Habsent Ea Hv).
      destruct v as [|c|c]; [by eapply IH | by eapply IH | by destruct (Hv c)]. }
    destruct v; [by apply Hv | by apply Hv | done].
Qed.

End OutputFile.

(** Take any attempt whose driver call succeeds and leaves a file that
    is not strictly smaller than the original.  Either the attempt deletes
    that file and the loop goes on to the remaining presets from a world in
    which the output path is absent; or the original size is zero, the
    division raises ZeroDivisionError and the loop ends there, so that no
    next attempt begins.  Every command the loop starts writes to the one
    output path, so there is never more than one candidate file. *)
Theorem rejected_output_is_deleted
    (h : host) (spawn : list string -> gmap string N -> launch * gmap string N)
    (input_pdf output_pdf : string) (original_size : N)
    (quality : string) (rest : list string) (w w1 : world) (n : N) :
  compress_pdf h spawn input_pdf output_pdf quality (say (MsgTrying quality) w)
  = (Return true, w1) ->
  fs w1 !! output_pdf = Some n ->
  ¬ round53 n < original_size ->
  ((∃ w2,
      attempt h spawn input_pdf output_pdf original_size quality w
      = (Return (NotSmaller (round53 n)), w2)
      ∧ fs w2 !! output_pdf = None
      ∧ fallback_loop h spawn input_pdf output_pdf original_size (quality :: rest) w
        = fallback_loop h spawn input_pdf output_pdf original_size rest w2)
   ∨ (original_size = 0
      ∧ fallback_loop h spawn input_pdf output_pdf original_size (quality :: rest) w
        = (Raise ZeroDivisionError, w1)))
  ∧ (∀ qs w0 r w',
       fallback_loop h spawn input_pdf output_pdf original_size qs w0 = (r, w') ->
       ∃ cmds,
         procs w' = (procs w0 ++ cmds)%list
         ∧ Forall (λ cmd, nth 24 cmd "" = "-sOutputFile=" ++ output_pdf) cmds).
Proof.
  intros Hc Hn Hge. split.
  - rewrite fallback_loop_cons, attempt_run, Hc, Hn.
    destruct (N.eqb_spec original_size 0) as [Hz|Hnz]; [by right |].
    left. destruct (N.ltb_spec (round53 n) original_size) as [|_]; [done |].
    eexists. split; [done |]. split; [| done].
    cbn [fs]. apply lookup_delete_eq.
  - intros qs w0 r w' Hloop.
    destruct (fallback_loop_commands _ _ _ _ _ _ _ _ _ Hloop) as (cmds & Hp & Hall).
    exists cmds. split; [done |].
    eapply Forall_impl; [exact Hall |].
    by intros cmd (q & gs & ->).
Qed.

Lemma rejected_output_is_deleted_witness :
  compress_pdf Sample.linux Sample.report_engine "report.pdf"
    "report_compressed.pdf" "printer" (say (MsgTrying "printer") Sample.report_begun)
  = (Return true, Sample.report_printer_done)
  ∧ fs Sample.report_printer_done !! "report_compressed.pdf" = Some 10500
  ∧ ¬ round53 10500 < 10000
  ∧ ((∃ w2,
        attempt Sample.linux Sample.report_engine "report.pdf"
          "report_compressed.pdf" 10000 "printer" Sample.report_begun
        = (Return (NotSmaller (round53 10500)), w2)
        ∧ fs w2 !! "report_compressed.pdf" = None
        ∧ fallback_loop Sample.linux Sample.report_engine "report.pdf"
            "report_compressed.pdf" 10000 ("printer" :: ["ebook"; "screen"])
            Sample.report_begun
          = fallback_loop Sample.linux Sample.report_engine "report.pdf"
              "report_compressed.pdf" 10000 ["ebook"; "screen"] w2)
      ∨ (10000 = 0
         ∧ fallback_loop Sample.linux Sample.report_engine "report.pdf"
             "report_compressed.pdf" 10000 ("printer" :: ["ebook"; "screen"])
             Sample.report_begun
           = (Raise ZeroDivisionError, Sample.report_printer_done))).
Proof.
  assert (Hc : compress_pdf Sample.linux Sample.report_engine "report.pdf"
                 "report_compressed.pdf" "printer"
                 (say (MsgTrying "printer") Sample.report_begun)
               = (Return true, Sample.report_printer_done))
    by (vm_compute; reflexivity).
  assert (Hn : fs Sample.report_printer_done !! "report_compressed.pdf" = Some 10500)
    by (vm_compute; reflexivity).
  assert (Hge : ¬ round53 10500 < 10000)
    by (intros H; vm_compute in H; discriminate).
  split; [exact Hc |]. split; [exact Hn |]. split; [exact Hge |].
  exact (proj1 (rejected_output_is_deleted Sample.linux Sample.report_engine
                  "report.pdf" "report_compressed.pdf" 10000 "printer"
                  ["ebook"; "screen"] Sample.report_begun
                  Sample.report_printer_done 10500 Hc Hn Hge)).
Defined.

(** C3 fails on the code.  The input 'empty.pdf' has zero bytes; the
    driver call for 'printer' succeeds and leaves 10500 bytes at the output
    path, which is not strictly smaller than the original.  The percentage
    is computed before the sizes are compared, the division by the original
    size raises ZeroDivisionError, and [main] ends there: the [else] branch
    with [os.remove] is never reached and the file stays on the disk. *)
Theorem zero_byte_input_keeps_rejected_output :
  compress_pdf Sample.linux Sample.report_engine "empty.pdf"
    "empty_compressed.pdf" "printer" (say (MsgTrying "printer") Sample.empty_begun)
  = (Return true, Sample.empty_printer_done)
  ∧ get_file_size "empty.pdf" Sample.empty_checked
    = (Return 0, Sample.empty_checked)
  ∧ get_file_size "empty_compressed.pdf" Sample.empty_printer_done
    = (Return 10500, Sample.empty_printer_done)
  ∧ ¬ 10500 < 0
  ∧ main Sample.linux Sample.report_engine ["pdf_compressor.py"; "empty.pdf"]
      (Sample.start Sample.empty_disk)
    = (Raise ZeroDivisionError, Sample.empty_printer_done)
  ∧ fs Sample.empty_printer_done !! "empty_compressed.pdf" = Some 10500.
Proof.
  split; [vm_compute; reflexivity |]. split; [vm_compute; reflexivity |].
  split; [vm_compute; reflexivity |]. split; [lia |].
  split; vm_compute; reflexivity.
Qed.

(** ** Exhaustion *)

(** C4, as amended. If the loop of [main] runs out of presets, [main]
    prints the block of hints and returns normally.  No file is then at the
    output path, provided none was there when the engine check was over and
    the engine leaves none there when it fails: [main] deletes the output
    only after a successful attempt that did not shrink the file. *)
Theorem exhaustion_is_reported
    (h : host) (spawn : list string -> gmap string N -> launch * gmap string N)
    (prog p : string) (w w1 w3 : world) (n : N) :
  check_ghostscript h spawn w = (Return true, w1) ->
  fs w1 !! p = Some n ->
  Str.endswith (Str.lower p) ".pdf" = true ->
  fallback_loop h spawn p (output_name h p) (round53 n) quality_levels
    (say MsgCompressing (say (MsgOriginalSize (round53 n)) w1))
  = (Return None, w3) ->
  main h spawn [prog; p] w = (Return tt, say MsgNoReduction w3)
  ∧ (fs w1 !! output_name h p = None ->
     no_file_on_failure spawn (output_name h p) ->
     fs (say MsgNoReduction w3) !! output_name h p = None).
Proof.
  intros Hgs Hp Hext Hloop. split.
  - rewrite main_run, Hgs. unfold exists_on. by rewrite Hp, Hext, Hloop.
  - intros Habsent Hengine. cbn [say fs].
    apply (fallback_loop_exhausted_absent _ _ _ _ _ _ _ _ Hengine) in Hloop;
      done.
Qed.

Lemma stubborn_engine_leaves_nothing (output_pdf : string) :
  no_file_on_failure Sample.stubborn_engine output_pdf.
Proof.
  intros cmd d l d' Hs Hfail Habsent.
  unfold Sample.stubborn_engine, Sample.engine in Hs.
  destruct (String.eqb (nth 1 cmd "") "--version").
  { injection Hs as <- <-. by destruct (Hfail _ eq_refl). }
  cbv beta in Hs.
  destruct (String.eqb (nth 6 cmd "") "-dPDFSETTINGS=/printer").
  { by injection Hs as <- <-. }
  destruct (String.eqb (nth 6 cmd "") "-dPDFSETTINGS=/ebook");
    injection Hs as <- <-; by destruct (Hfail _ eq_refl).
Qed.

Lemma exhaustion_is_reported_witness :
  check_ghostscript Sample.linux Sample.stubborn_engine
    (Sample.start Sample.report_disk)
  = (Return true, Sample.report_checked)
  ∧ fs Sample.report_checked !! "report.pdf" = Some 10000
  ∧ Str.endswith (Str.lower "report.pdf") ".pdf" = true
  ∧ main Sample.linux Sample.stubborn_engine ["pdf_compressor.py"; "report.pdf"]
      (Sample.start Sample.report_disk)
    = (Return tt,
       World Sample.report_disk
         [["gs"; "--version"];
          gs_command "gs" "report.pdf" "report_compressed.pdf" "printer";
          gs_command "gs" "report.pdf" "report_compressed.pdf" "ebook";
          gs_command "gs" "report.pdf" "report_compressed.pdf" "screen"]
         [MsgOriginalSize 10000; MsgCompressing;
          MsgTrying "printer"; MsgGhostscriptError [];
          MsgTrying "ebook"; MsgNextLevel;
          MsgTrying "screen"; MsgNextLevel;
          MsgNoReduction])
  ∧ fs (World Sample.report_disk
          [["gs"; "--version"];
           gs_command "gs" "report.pdf" "report_compressed.pdf" "printer";
           gs_command "gs" "report.pdf" "report_compressed.pdf" "ebook";
           gs_command "gs" "report.pdf" "report_compressed.pdf" "screen"]
          [MsgOriginalSize 10000; MsgCompressing;
           MsgTrying "printer"; MsgGhostscriptError [];
           MsgTrying "ebook"; MsgNextLevel;
           MsgTrying "screen"; MsgNextLevel;
           MsgNoReduction])
     !! output_name Sample.linux "report.pdf" = None.
Proof.
  assert (Hgs : check_ghostscript Sample.linux Sample.stubborn_engine
                  (Sample.start Sample.report_disk)
                = (Return true, Sample.report_checked))
    by (vm_compute; reflexivity).
  assert (Hp : fs Sample.report_checked !! "report.pdf" = Some 10000)
    by (vm_compute; reflexivity).
  assert (Hext : Str.endswith (Str.lower "report.pdf") ".pdf" = true)
    by (vm_compute; reflexivity).
  pose proof (exhaustion_is_reported Sample.linux Sample.stubborn_engine
                "pdf_compressor.py" "report.pdf" (Sample.start Sample.report_disk)
                Sample.report_checked
                (World Sample.report_disk
                   [["gs"; "--version"];
                    gs_command "gs" "report.pdf" "report_compressed.pdf" "printer";
                    gs_command "gs" "report.pdf" "report_compressed.pdf" "ebook";
                    gs_command "gs" "report.pdf" "report_compressed.pdf" "screen"]
                   [MsgOriginalSize 10000; MsgCompressing;
                    MsgTrying "printer"; MsgGhostscriptError [];
                    MsgTrying "ebook"; MsgNextLevel;
                    MsgTrying "screen"; MsgNextLevel])
                10000 Hgs Hp Hext) as Hthm.
  destruct Hthm as [Hmain Habsent]; [vm_compute; reflexivity |].
  split; [exact Hgs |]. split; [exact Hp |]. split; [exact Hext |].
  split; [exact Hmain |].
  apply Habsent; [vm_compute; reflexivity |].
  apply stubborn_engine_leaves_nothing.
Defined.

(** C4, as stated, fails: with an engine that stops with status 1 at every
    preset and leaves the bytes written so far, the loop runs out of
    presets, [main] reports exhaustion, and a file of 12000 bytes (the
    original has 10000) is at the output path when it returns. *)
Lemma failed_attempts_leave_their_file :
  fallback_loop Sample.linux Sample.truncating_engine "report.pdf"
    (output_name Sample.linux "report.pdf") (round53 10000) quality_levels
    Sample.report_begun
  = (Return None,
     World (<["report_compressed.pdf" := 12000]> Sample.report_disk)
       [["gs"; "--version"];
        gs_command "gs" "report.pdf" "report_compressed.pdf" "printer";
        gs_command "gs" "report.pdf" "report_compressed.pdf" "ebook";
        gs_command "gs" "report.pdf" "report_compressed.pdf" "screen"]
       [MsgOriginalSize 10000; MsgCompressing;
        MsgTrying "printer"; MsgGhostscriptError [];
        MsgTrying "ebook"; MsgGhostscriptError [];
        MsgTrying "screen"; MsgGhostscriptError []])
  ∧ ∃ w',
      main Sample.linux Sample.truncating_engine
        ["pdf_compressor.py"; "report.pdf"] (Sample.start Sample.report_disk)
      = (Return tt, w')
      ∧ last (console w') = Some MsgNoReduction
      ∧ fs w' !! output_name Sample.linux "report.pdf" = Some 12000.
Proof.
  split; [vm_compute; reflexivity |].
  eexists. split; [vm_compute; reflexivity |].
  split; vm_compute; reflexivity.
Qed.

(** ** Driver failures *)

Section DriverFailure.

Variable h : host.
Variable spawn : list string -> gmap string N -> launch * gmap string N.
Variables input_pdf output_pdf : string.

(** When the driver returns False the loop goes on to the next preset
    without measuring anything. *)
Lemma failed_driver_advances (original_size : N) (quality : string)
    (rest : list string) (w w1 : world) :
  compress_pdf h spawn input_pdf output_pdf quality (say (MsgTrying quality) w)
  = (Return false, w1) ->
  fallback_loop h spawn input_pdf output_pdf original_size (quality :: rest) w
  = fallback_loop h spawn input_pdf output_pdf original_size rest w1.
Proof.
  intros Hc. by rewrite fallback_loop_cons, attempt_run, Hc.
Qed.

(** The driver raises in one case only: the engine ended with a status
    other than 0 and its diagnostic is not UTF-8. *)
Lemma compress_pdf_raises (quality : string) (w : world) (e : exn) :
  fst (compress_pdf h spawn input_pdf output_pdf quality w) = Raise e <->
  e = UnicodeDecodeError
  ∧ ∃ p,
      fst (spawn (gs_command (gs_binary_on h (fs w)) input_pdf output_pdf quality)
             (fs w)) = Exited p
      ∧ returncode p ≠ 0%Z
      ∧ Str.utf8_valid (stderr p) = false.
Proof.
  rewrite compress_pdf_run. cbv zeta.
  destruct (fst (spawn _ (fs w))) as [p| |what].
  - destruct (Z.eqb_spec (returncode p) 0) as [Hz|Hnz]; cbn [fst].
    + split; [done |]. by intros (_ & p' & [= <-] & Hrc & _).
    + destruct (Str.utf8_valid (stderr p)) eqn:Ev; cbn [fst].
      * split; [done |]. intros (_ & p' & [= <-] & _ & Hv). congruence.
      * split.
        -- intros [= <-]. split; [done |]. by exists p.
        -- by intros (-> & _).
  - cbn [fst]. split; [done |]. by intros (_ & p' & ? & _).
  - cbn [fst]. split; [done |]. by intros (_ & p' & ? & _).
Qed.

End DriverFailure.

(** C5 fails on the code.  The engine ends the 'printer' attempt with
    status 1 and the diagnostic bytes E9 5C, which are not UTF-8: the
    handler of CalledProcessError raises UnicodeDecodeError while formatting
    its message, the driver does not return, and [main] ends with that
    exception after one compression command: 'ebook' and 'screen' are never
    attempted. *)
Theorem undecodable_diagnostic_aborts_run :
  main Sample.linux Sample.latin1_engine ["pdf_compressor.py"; "report.pdf"]
    (Sample.start Sample.report_disk)
  = (Raise UnicodeDecodeError,
     World Sample.report_disk
       [["gs"; "--version"]; Sample.printer_command]
       [MsgOriginalSize 10000; MsgCompressing; MsgTrying "printer"]).
Proof. vm_compute. reflexivity. Qed.

(** ** Determinism *)

Section Decided.

Variable h : host.
Variable spawn : list string -> gmap string N -> launch * gmap string N.
Variables input_pdf output_pdf : string.
Variable original_size : N.
Variable b : string -> option N.
Hypothesis engine_behaves : behaves h spawn input_pdf output_pdf b.

Lemma fallback_loop_decided (qs : list string) :
  (∀ q, In q qs -> In q quality_levels) ->
  ∀ w : world,
    fst (fallback_loop h spawn input_pdf output_pdf original_size qs w)
    = decided b original_size qs
    ∧ (∀ q, decided b original_size qs = Return (Some q) ->
            fs (snd (fallback_loop h spawn input_pdf output_pdf original_size qs w))
               !! output_pdf = b q).
Proof.
  induction qs as [|q0 rest IH]; intros Hin w; [done |].
  assert (Hrest : ∀ q, In q rest -> In q quality_levels)
    by (intros q Hq; apply Hin; by right).
  specialize (IH Hrest).
  destruct (engine_behaves q0 (say (MsgTrying q0) w)) as [w1 Hb];
    [apply Hin; by left |].
  rewrite fallback_loop_cons, attempt_run. cbn [decided].
  destruct (b q0) as [n|] eqn:Eb.
  - destruct Hb as [-> Hn]. rewrite Hn.
    destruct (original_size =? 0); [done |].
    destruct (round53 n <? original_size).
    + split; [done |]. intros q [= <-]. cbn [snd say fs]. by rewrite Hn, Eb.
    + apply IH.
  - rewrite Hb. apply IH.
Qed.

End Decided.

Section DecidedAlong.

Variable h : host.
Variable spawn : list string -> gmap string N -> launch * gmap string N.
Variables input_pdf output_pdf : string.
Variable original_size : N.
Variable b : string -> option N.

Lemma fallback_loop_decided_along (qs : list string) :
  ∀ w : world,
    behaves_along h spawn input_pdf output_pdf original_size b qs w ->
    fst (fallback_loop h spawn input_pdf output_pdf original_size qs w)
    = decided b original_size qs
    ∧ (∀ q, decided b original_size qs = Return (Some q) ->
            fs (snd (fallback_loop h spawn input_pdf output_pdf original_size qs w))
               !! output_pdf = b q).
Proof.
  induction qs as [|q0 rest IH]; intros w Hrun; [done |].
  cbn [behaves_along] in Hrun. destruct Hrun as [[w1 Hq] Hnext].
  rewrite fallback_loop_cons. rewrite attempt_run in Hnext |- *.
  cbn [decided].
  destruct (b q0) as [n|] eqn:Eb.
  - destruct Hq as [Hc Hn]. rewrite Hc, Hn in Hnext |- *.
    destruct (original_size =? 0); [done |].
    destruct (round53 n <? original_size).
    + split; [done |]. intros q [= <-]. cbn [snd say fs]. by rewrite Hn, Eb.
    + apply IH, (Hnext _ _ eq_refl). by intros c.
  - rewrite Hq in Hnext |- *. apply IH, (Hnext _ _ eq_refl). by intros c.
Qed.

(** An engine that behaves as the table says in every world does so along
    every run. *)
Lemma behaves_gives_along (qs : list string) :
  behaves h spawn input_pdf output_pdf b ->
  (∀ q, In q qs -> In q quality_levels) ->
  ∀ w : world,
    behaves_along h spawn input_pdf output_pdf original_size b qs w.
Proof.
  intros Hb. induction qs as [|q0 rest IH]; intros Hin w; [done |].
  cbn [behaves_along]. split.
  - apply Hb, Hin. by left.
  - intros v w2 _ _. apply IH. intros q Hq. apply Hin. by right.
Qed.

End DecidedAlong.

(** C8. Take two runs of the loop with the same input and output paths and
    the same original size, on any two machines, engines and worlds.  If in
    both runs the engine behaves as one table says at every attempt the run
    makes (at each attempted preset the same success or failure and, on
    success, the same output size), the two runs end the same way: the same
    accepted preset, or both exhausted, or both stopped by the same
    exception; and an accepted output has the same size in both.  Nothing
    is assumed of the engines outside the worlds the runs go through, so
    engines that read their input are covered. *)
Theorem same_behaviour_same_result
    (h1 h2 : host)
    (spawn1 spawn2 : list string -> gmap string N -> launch * gmap string N)
    (input_pdf output_pdf : string) (original_size : N)
    (b : string -> option N) (w1 w2 : world) :
  behaves_along h1 spawn1 input_pdf output_pdf original_size b quality_levels w1 ->
  behaves_along h2 spawn2 input_pdf output_pdf original_size b quality_levels w2 ->
  fst (fallback_loop h1 spawn1 input_pdf output_pdf original_size quality_levels w1)
  = fst (fallback_loop h2 spawn2 input_pdf output_pdf original_size quality_levels w2)
  ∧ (∀ q,
       fst (fallback_loop h1 spawn1 input_pdf output_pdf original_size
              quality_levels w1) = Return (Some q) ->
       fs (snd (fallback_loop h1 spawn1 input_pdf output_pdf original_size
                  quality_levels w1)) !! output_pdf
       = fs (snd (fallback_loop h2 spawn2 input_pdf output_pdf original_size
                    quality_levels w2)) !! output_pdf).
Proof.
  intros Hb1 Hb2.
  destruct (fallback_loop_decided_along h1 spawn1 input_pdf output_pdf
              original_size b quality_levels w1 Hb1) as [E1 F1].
  destruct (fallback_loop_decided_along h2 spawn2 input_pdf output_pdf
              original_size b quality_levels w2 Hb2) as [E2 F2].
  split; [by rewrite E1, E2 |].
  intros q Hq. rewrite E1 in Hq. by rewrite (F1 q Hq), (F2 q Hq).
Qed.

Lemma substring_all (s : string) : substring 0 (String.length s) s = s.
Proof. induction s as [|c s IH]; [done |]. cbn. by rewrite IH. Qed.

Lemma sample_engine_compress (version : launch)
    (behave : string -> launch * option N)
    (gs_binary input_path output_path quality : string) (d : gmap string N) :
  Sample.engine version behave
    (gs_command gs_binary input_path output_path quality) d
  = (fst (behave ("-dPDFSETTINGS=" ++ default "/printer" (quality_settings !! quality))),
     match snd (behave ("-dPDFSETTINGS="
                        ++ default "/printer" (quality_settings !! quality))) with
     | Some n => <[output_path := n]> d
     | None => d
     end).
Proof.
  unfold Sample.engine, Sample.output_of, gs_command.
  cbn [nth String.eqb Ascii.eqb Bool.eqb].
  destruct (behave _) as [l written]. cbn [fst snd].
  replace (substring _ _ _) with output_path; [done |].
  cbv [String.append]. fold String.append. cbn.
  by rewrite Nat.sub_0_r, substring_all.
Qed.

Lemma preset_argument (quality : string) :
  In quality quality_levels ->
  "-dPDFSETTINGS=" ++ default "/printer" (quality_settings !! quality)
  = "-dPDFSETTINGS=/" ++ quality.
Proof. by intros [<- | [<- | [<- | []]]]. Qed.

Lemma report_engine_behaves (h : host) :
  behaves h Sample.report_engine "report.pdf" "report_compressed.pdf"
    Sample.report_table.
Proof.
  intros q w Hin.
  assert (Hq := preset_argument q Hin).
  destruct Hin as [<- | [<- | [<- | []]]]; eexists;
    rewrite compress_pdf_run; cbv zeta; unfold Sample.report_engine;
    rewrite sample_engine_compress, Hq;
    (split; [reflexivity | apply lookup_insert_eq]).
Qed.

Lemma logging_engine_behaves (h : host) :
  behaves h Sample.logging_engine "report.pdf" "report_compressed.pdf"
    Sample.report_table.
Proof.
  intros q w Hin.
  assert (Hq := preset_argument q Hin).
  destruct Hin as [<- | [<- | [<- | []]]]; eexists;
    rewrite compress_pdf_run; cbv zeta;
    unfold Sample.logging_engine, Sample.report_engine;
    rewrite sample_engine_compress, Hq;
    (split; [reflexivity |]);
    cbv beta iota delta [String.append String.eqb Ascii.eqb Bool.eqb fst snd];
    cbn [fs]; by rewrite lookup_insert_ne, lookup_insert_eq.
Qed.

(** The engine that reads its input follows the table of the example
    along the run on the example's disk: 'printer' gives 10500 bytes and is
    rejected, 'ebook' gives 6000 bytes and is accepted. *)
Lemma reading_engine_behaves_along :
  behaves_along Sample.linux Sample.reading_engine "report.pdf"
    "report_compressed.pdf" 10000 Sample.report_table quality_levels
    Sample.report_begun.
Proof.
  unfold quality_levels. cbn [behaves_along]. split.
  - exists Sample.report_printer_done. split; vm_compute; reflexivity.
  - intros v w2 Ha _.
    assert (Hrun : attempt Sample.linux Sample.reading_engine "report.pdf"
                     "report_compressed.pdf" 10000 "printer" Sample.report_begun
                   = (Return (NotSmaller 10500), Sample.report_printer_rejected))
      by (vm_compute; reflexivity).
    rewrite Hrun in Ha. injection Ha as <- <-. split.
    + exists Sample.report_ebook_done. split; vm_compute; reflexivity.
    + intros v w3 Ha Hv.
      assert (Hrun' : fst (attempt Sample.linux Sample.reading_engine "report.pdf"
                             "report_compressed.pdf" 10000 "ebook"
                             Sample.report_printer_rejected)
                      = Return (Accepted 6000))
        by (vm_compute; reflexivity).
      rewrite Ha in Hrun'. injection Hrun' as ->. by destruct (Hv 6000).
Qed.

Lemma same_behaviour_same_result_witness :
  behaves_along Sample.linux Sample.reading_engine "report.pdf"
    "report_compressed.pdf" 10000 Sample.report_table quality_levels
    Sample.report_begun
  ∧ behaves_along Sample.windows Sample.logging_engine "report.pdf"
      "report_compressed.pdf" 10000 Sample.report_table quality_levels
      (Sample.start Sample.report_disk)
  ∧ fst (fallback_loop Sample.linux Sample.reading_engine "report.pdf"
           "report_compressed.pdf" 10000 quality_levels Sample.report_begun)
    = fst (fallback_loop Sample.windows Sample.logging_engine "report.pdf"
             "report_compressed.pdf" 10000 quality_levels
             (Sample.start Sample.report_disk)).
Proof.
  assert (H2 : behaves_along Sample.windows Sample.logging_engine "report.pdf"
                 "report_compressed.pdf" 10000 Sample.report_table quality_levels
                 (Sample.start Sample.report_disk)).
  { apply behaves_gives_along; [apply logging_engine_behaves | done]. }
  split; [exact reading_engine_behaves_along |]. split; [exact H2 |].
  exact (proj1 (same_behaviour_same_result Sample.linux Sample.windows
                  Sample.reading_engine Sample.logging_engine
                  "report.pdf" "report_compressed.pdf" 10000 Sample.report_table
                  Sample.report_begun (Sample.start Sample.report_disk)
                  reading_engine_behaves_along H2)).
Defined.

Example two_engines_accept_ebook :
  fst (fallback_loop Sample.windows Sample.logging_engine "report.pdf"
         "report_compressed.pdf" 10000 quality_levels
         (Sample.start Sample.report_disk))
  = Return (Some "ebook").
Proof. vm_compute. reflexivity. Qed.

(** ** The division by the original size *)

(** The size [get_file_size] reports is zero exactly for a file of zero
    bytes. *)
Lemma measured_zero_iff_empty (p : string) (w : world) :
  get_file_size p w = (Return 0, w) <-> fs w !! p = Some 0.
Proof.
  rewrite get_file_size_run. destruct (fs w !! p) as [n|]; [| done].
  split.
  - intros [= Hz]. apply (proj1 (round53_zero n)) in Hz. by rewrite Hz.
  - by intros [= ->].
Qed.

(** C9. After every successful driver call the percentage is computed
    before the sizes are compared, with the original size as divisor and no
    test on it: the attempt ends with ZeroDivisionError exactly when the
    original size is zero, and returns a verdict otherwise.  The validator
    does not rule this out: a zero-byte file whose name ends in '.pdf'
    passes [check_pdf] and is measured as zero, and [main] on such a file
    ends with ZeroDivisionError as soon as the driver succeeds at
    'printer'. *)
Theorem reduction_divides_by_original_size
    (h : host) (spawn : list string -> gmap string N -> launch * gmap string N)
    (input_pdf output_pdf : string) (original_size : N)
    (quality : string) (w w1 : world) (n : N) :
  compress_pdf h spawn input_pdf output_pdf quality (say (MsgTrying quality) w)
  = (Return true, w1) ->
  fs w1 !! output_pdf = Some n ->
  (attempt h spawn input_pdf output_pdf original_size quality w
   = (Raise ZeroDivisionError, w1) <-> original_size = 0)
  ∧ (original_size ≠ 0 ->
     ∃ v w2,
       attempt h spawn input_pdf output_pdf original_size quality w
       = (Return v, w2))
  ∧ (∀ p w0,
       fs w0 !! p = Some 0 ->
       Str.endswith (Str.lower p) ".pdf" = true ->
       check_pdf p w0 = (Return true, w0)
       ∧ get_file_size p w0 = (Return 0, w0))
  ∧ (∀ prog p w0 wv wc m,
       check_ghostscript h spawn w0 = (Return true, wv) ->
       fs wv !! p = Some 0 ->
       Str.endswith (Str.lower p) ".pdf" = true ->
       compress_pdf h spawn p (output_name h p) "printer"
         (say (MsgTrying "printer")
            (say MsgCompressing (say (MsgOriginalSize 0) wv)))
       = (Return true, wc) ->
       fs wc !! output_name h p = Some m ->
       main h spawn [prog; p] w0 = (Raise ZeroDivisionError, wc)).
Proof.
  intros Hc Hn. split; [| split; [| split]].
  - rewrite attempt_run, Hc, Hn.
    destruct (N.eqb_spec original_size 0) as [Hz|Hnz]; [done |].
    split; [| done].
    destruct (round53 n <? original_size); discriminate.
  - intros Hnz. rewrite attempt_run, Hc, Hn.
    apply N.eqb_neq in Hnz. rewrite Hnz.
    destruct (round53 n <? original_size); by eexists _, _.
  - intros p w0 Hp Hext. split.
    + rewrite check_pdf_run. unfold exists_on. by rewrite Hp, Hext.
    + by apply measured_zero_iff_empty.
  - intros prog p w0 wv wc m Hgs Hp Hext Hdrv Hm.
    rewrite main_run, Hgs. unfold exists_on. rewrite Hp, Hext. cbn [andb].
    change (round53 0) with 0.
    unfold quality_levels. by rewrite fallback_loop_cons, attempt_run, Hdrv, Hm.
Qed.

Lemma reduction_divides_by_original_size_witness :
  compress_pdf Sample.linux Sample.report_engine "empty.pdf"
    "empty_compressed.pdf" "printer" (say (MsgTrying "printer") Sample.empty_begun)
  = (Return true, Sample.empty_printer_done)
  ∧ fs Sample.empty_printer_done !! "empty_compressed.pdf" = Some 10500
  ∧ check_pdf "empty.pdf" Sample.empty_checked
    = (Return true, Sample.empty_checked)
  ∧ main Sample.linux Sample.report_engine ["pdf_compressor.py"; "empty.pdf"]
      (Sample.start Sample.empty_disk)
    = (Raise ZeroDivisionError, Sample.empty_printer_done).
Proof.
  assert (Hc : compress_pdf Sample.linux Sample.report_engine "empty.pdf"
                 "empty_compressed.pdf" "printer"
                 (say (MsgTrying "printer") Sample.empty_begun)
               = (Return true, Sample.empty_printer_done))
    by (vm_compute; reflexivity).
  assert (Hn : fs Sample.empty_printer_done !! "empty_compressed.pdf" = Some 10500)
    by (vm_compute; reflexivity).
  destruct (reduction_divides_by_original_size Sample.linux Sample.report_engine
              "empty.pdf" "empty_compressed.pdf" 0 "printer" Sample.empty_begun
              Sample.empty_printer_done 10500 Hc Hn)
    as (_ & _ & Hvalid & Hmain).
  split; [exact Hc |]. split; [exact Hn |]. split.
  - apply Hvalid; vm_compute; reflexivity.
  - apply (Hmain "pdf_compressor.py" "empty.pdf" (Sample.start Sample.empty_disk)
             Sample.empty_checked Sample.empty_printer_done 10500);
      vm_compute; reflexivity.
Defined.

(** ** The example of the specification

    'report.pdf' (10000 bytes here): 'printer' gives 10500 bytes, is
    rejected and deleted; 'ebook' gives 6000 bytes and is accepted, with a
    reduction of 40 percent. *)
Example report_is_compressed_at_ebook :
  main Sample.linux Sample.report_engine ["pdf_compressor.py"; "report.pdf"]
    (Sample.start Sample.report_disk)
  = (Return tt,
     World (<["report_compressed.pdf" := 6000]> Sample.report_disk)
       [["gs"; "--version"];
        gs_command "gs" "report.pdf" "report_compressed.pdf" "printer";
        gs_command "gs" "report.pdf" "report_compressed.pdf" "ebook"]
       [MsgOriginalSize 10000; MsgCompressing;
        MsgTrying "printer"; MsgNextLevel;
        MsgTrying "ebook";
        MsgSuccess "ebook" 10000 6000 (percent 10000 6000)
          "report_compressed.pdf"])
  ∧ (percent 10000 6000 == 40)%Q.
Proof. split; vm_compute; reflexivity. Qed.

(** ** Wrong number of arguments *)

Lemma wrong_arity_usage
    (h : host) (spawn : list string -> gmap string N -> launch * gmap string N)
    (argv : list string) (w : world) :
  List.length argv ≠ 2%nat ->
  main h spawn argv w
  = (Return tt, World (fs w) (procs w) (console w ++ [MsgUsage])).
Proof.
  intros Hlen. unfold main.
  destruct (Nat.eqb_spec (List.length argv) 2) as [|_]; done.
Qed.

(** X1. Called with anything but one argument after the script name, [main]
    prints the usage text and returns: no call of [subprocess.run] is
    made, the disk is not read or changed, and nothing else is printed. *)
Theorem wrong_arity_prints_usage
    (h : host) (spawn : list string -> gmap string N -> launch * gmap string N)
    (argv : list string) (w : world) :
  List.length argv ≠ 2%nat ->
  main h spawn argv w
  = (Return tt, World (fs w) (procs w) (console w ++ [MsgUsage])).
Proof. apply wrong_arity_usage. Qed.

Lemma wrong_arity_prints_usage_witness :
  List.length ["pdf_compressor.py"; "a.pdf"; "b.pdf"] ≠ 2%nat
  ∧ main Sample.linux Sample.report_engine ["pdf_compressor.py"; "a.pdf"; "b.pdf"]
      (Sample.start Sample.report_disk)
    = (Return tt, World Sample.report_disk [] [MsgUsage]).
Proof.
  assert (Hlen : List.length ["pdf_compressor.py"; "a.pdf"; "b.pdf"] ≠ 2%nat)
    by (cbn; lia).
  split; [exact Hlen |].
  exact (wrong_arity_prints_usage Sample.linux Sample.report_engine
           ["pdf_compressor.py"; "a.pdf"; "b.pdf"]
           (Sample.start Sample.report_disk) Hlen).
Defined.

(** ** Strings: appending, cutting, searching *)

Lemma append_cons (c : ascii) (a b : string) :
  String c a ++ b = String c (a ++ b).
Proof. reflexivity. Qed.

Lemma append_empty_r (s : string) : s ++ "" = s.
Proof. induction s as [|c s IH]; [done |]. by rewrite append_cons, IH. Qed.

Lemma append_associative (a b c : string) : (a ++ b) ++ c = a ++ (b ++ c).
Proof. induction a as [|x a IH]; [done |]. by rewrite !append_cons, IH. Qed.

Lemma append_cancel_l (a x y : string) : a ++ x = a ++ y -> x = y.
Proof.
  induction a as [|c a IH]; [done |]. rewrite !append_cons.
  intros [= H]. by apply IH.
Qed.

Lemma append_length (a b : string) :
  String.length (a ++ b) = (String.length a + String.length b)%nat.
Proof.
  induction a as [|c a IH]; [done |]. rewrite append_cons. cbn. by rewrite IH.
Qed.

Lemma lower_append (a b : string) :
  Str.lower (a ++ b) = Str.lower a ++ Str.lower b.
Proof.
  induction a as [|c a IH]; [done |]. rewrite append_cons. cbn [Str.lower].
  by rewrite append_cons, IH.
Qed.

Lemma substring_prefix_suffix (s : string) :
  ∀ k : nat, (k <= String.length s)%nat ->
    substring 0 k s ++ substring k (String.length s - k) s = s.
Proof.
  induction s as [|c s IH]; intros k Hk.
  - cbn in Hk. assert (k = 0%nat) as -> by lia. done.
  - destruct k as [|k].
    + cbn. by rewrite substring_all.
    + cbn in Hk. cbn [substring String.length Nat.sub].
      rewrite append_cons, IH; [done | lia].
Qed.

Lemma substring_starts_with (s : string) :
  ∀ (k : nat) (c : ascii),
    String.get k s = Some c ->
    ∃ rest, substring k (String.length s - k) s = String c rest.
Proof.
  induction s as [|a s IH]; intros k c Hget; [done |].
  destruct k as [|k].
  - cbn in Hget. injection Hget as ->. cbn. by eexists.
  - cbn in Hget |- *. by apply IH.
Qed.

Lemma get_in_bounds (s : string) :
  ∀ (k : nat) (c : ascii),
    String.get k s = Some c -> (k < String.length s)%nat.
Proof.
  induction s as [|a s IH]; intros k c Hget; [done |].
  destruct k as [|k]; cbn in *; [lia |].
  apply IH in Hget. lia.
Qed.

(** [rfind_from] answers -1 or the index (counted from [i]) of an
    occurrence of the character. *)
Lemma rfind_from_found (c : ascii) (s : string) :
  ∀ i : Z, (0 <= i)%Z ->
    Str.rfind_from i c s = (-1)%Z
    ∨ ((i <= Str.rfind_from i c s)%Z
       ∧ String.get (Z.to_nat (Str.rfind_from i c s - i)) s = Some c).
Proof.
  induction s as [|a s IH]; intros i Hi; [by left |].
  cbn [Str.rfind_from]. cbv zeta.
  destruct (IH (i + 1)%Z ltac:(lia)) as [Hnone | [Hle Hget]].
  - rewrite Hnone. cbn [Z.leb Z.compare].
    destruct (Ascii.eqb_spec a c) as [->|]; [| by left].
    right. split; [lia |]. by rewrite Z.sub_diag.
  - destruct (Z.leb_spec 0 (Str.rfind_from (i + 1) c s)); [| lia].
    right. split; [lia |].
    replace (Z.to_nat (Str.rfind_from (i + 1) c s - i))
      with (S (Z.to_nat (Str.rfind_from (i + 1) c s - (i + 1)))) by lia.
    done.
Qed.

Lemma rfind_found (c : ascii) (s : string) :
  (0 <= Str.rfind c s)%Z ->
  String.get (Z.to_nat (Str.rfind c s)) s = Some c.
Proof.
  intros Hpos. unfold Str.rfind in *.
  destruct (rfind_from_found c s 0 ltac:(lia)) as [H | [_ H]]; [lia |].
  by rewrite Z.sub_0_r in H.
Qed.

Lemma rfind_lower_bound (c : ascii) (s : string) : (-1 <= Str.rfind c s)%Z.
Proof.
  unfold Str.rfind.
  destruct (rfind_from_found c s 0 ltac:(lia)) as [H | [H _]]; lia.
Qed.

(** [os.path.splitext] cuts the path in two: the parts put together give
    the path back, and the second part is empty or begins with a dot. *)
Lemma splitext_parts (nt : bool) (p : string) :
  fst (Str.splitext nt p) ++ snd (Str.splitext nt p) = p
  ∧ (snd (Str.splitext nt p) = ""
     ∨ ∃ rest, snd (Str.splitext nt p) = String "." rest).
Proof.
  unfold Str.splitext. cbv zeta.
  set (sepIndex := if nt then _ else _).
  assert (Hsep : (-1 <= sepIndex)%Z).
  { unfold sepIndex. destruct nt; [| apply rfind_lower_bound].
    pose proof (rfind_lower_bound "\" p). lia. }
  destruct (Z.ltb_spec sepIndex (Str.rfind "." p)) as [Hlt|];
    cbn [andb]; [| split; [apply append_empty_r | by left]].
  destruct (Str.name_before_dot _ _ _);
    [| split; [apply append_empty_r | by left]].
  cbn [fst snd].
  pose proof (rfind_found "." p ltac:(lia)) as Hget.
  split.
  - apply substring_prefix_suffix. apply get_in_bounds in Hget. lia.
  - right. by apply substring_starts_with.
Qed.

(** ** The name of the output file *)

Lemma output_name_facts (h : host) (p : string) :
  output_name h p ≠ p
  ∧ (∃ stem, output_name h p = stem ++ "_compressed.pdf")
  ∧ Str.endswith (Str.lower (output_name h p)) ".pdf" = true.
Proof.
  unfold output_name.
  destruct (splitext_parts (String.eqb (os_name h) "nt") p) as [Hcat Hext].
  set (stem := fst (Str.splitext _ p)) in *.
  set (ext := snd (Str.splitext _ p)) in *.
  split; [| split].
  - intros Heq. rewrite <- Hcat in Heq.
    apply append_cancel_l in Heq.
    destruct Hext as [He | [rest He]]; rewrite He in Heq; discriminate.
  - by exists stem.
  - apply endswith_spec. exists (Str.lower stem ++ "_compressed").
    by rewrite lower_append, append_associative.
Qed.

(** X2. The output path is never the input path, so no attempt writes over the
    file it reads; and it ends with '_compressed.pdf', hence passes the
    extension test of [check_pdf] itself. *)
Theorem output_name_is_a_new_pdf_name (h : host) (p : string) :
  output_name h p ≠ p
  ∧ (∃ stem, output_name h p = stem ++ "_compressed.pdf")
  ∧ Str.endswith (Str.lower (output_name h p)) ".pdf" = true.
Proof. apply output_name_facts. Qed.

(** ** What [main] does to the disk *)

Section Disk.

Variable h : host.
Variable spawn : list string -> gmap string N -> launch * gmap string N.
Hypothesis engine_contract : engine_writes_only_output spawn.

Lemma check_ghostscript_keeps (x : string) (w : world) :
  fs (snd (check_ghostscript h spawn w)) !! x = fs w !! x.
Proof.
  assert (Hd : fs (snd (check_ghostscript h spawn w))
               = snd (spawn (version_query h w) (fs w))).
  { rewrite check_ghostscript_run. cbv zeta.
    destruct (version_launch h spawn w) as [p| |what]; try done.
    by destruct (Str.startswith _ _). }
  rewrite Hd. by apply engine_contract.
Qed.

Variables input_pdf output_pdf : string.
Variable original_size : N.
Variable x : string.
Hypothesis x_not_output : x ≠ output_pdf.

Lemma attempt_keeps (quality : string) (w : world) (r : result verdict)
    (w' : world) :
  attempt h spawn input_pdf output_pdf original_size quality w = (r, w') ->
  fs w' !! x = fs w !! x.
Proof.
  rewrite attempt_run.
  destruct (compress_pdf _ _ _ _ _ _) as [rb w1] eqn:Ec.
  apply compress_pdf_effects in Ec as [_ Hd]. cbn [say fs] in Hd.
  assert (Hx : fs w1 !! x = fs w !! x).
  { rewrite Hd. apply engine_contract.
    change (nth 24 (gs_command (gs_binary_on h (fs w)) input_pdf output_pdf
                      quality) "")
      with ("-sOutputFile=" ++ output_pdf).
    intros Heq. by apply append_cancel_l in Heq. }
  destruct rb as [[|]|e]; try by intros [= <- <-].
  destruct (fs w1 !! output_pdf) as [n|]; [| by intros [= <- <-]].
  destruct (original_size =? 0); [by intros [= <- <-] |].
  destruct (round53 n <? original_size); intros [= <- <-]; [done |].
  cbn [fs]. by rewrite lookup_delete_ne.
Qed.

Lemma fallback_loop_keeps (qs : list string) :
  ∀ (w : world) (r : result (option string)) (w' : world),
    fallback_loop h spawn input_pdf output_pdf original_size qs w = (r, w') ->
    fs w' !! x = fs w !! x.
Proof.
  induction qs as [|q0 rest IH]; intros w r w' H.
  - by injection H as <- <-.
  - rewrite fallback_loop_cons in H.
    destruct (attempt _ _ _ _ _ _ _) as [[v|e] w1] eqn:Ea;
      apply attempt_keeps in Ea.
    + destruct v; try (apply IH in H; congruence).
      injection H as <- <-. done.
    + injection H as <- <-. done.
Qed.

End Disk.

(** In the model's disk, where a path string is a key of its own:
    whatever [main] does, a key that the engine leaves alone and that is
    not the output path keeps its entry. *)
Lemma main_keeps
    (h : host) (spawn : list string -> gmap string N -> launch * gmap string N)
    (argv : list string) (x : string) (w : world) :
  engine_writes_only_output spawn ->
  x ≠ output_name h (nth 1 argv "") ->
  fs (snd (main h spawn argv w)) !! x = fs w !! x.
Proof.
  intros Hengine Hx.
  destruct (Nat.eq_dec (List.length argv) 2%nat) as [Hlen|Hlen];
    [| by rewrite wrong_arity_usage].
  destruct argv as [|prog [|p [|]]]; try done. cbn [nth] in Hx.
  rewrite main_run.
  pose proof (check_ghostscript_keeps h spawn Hengine x w) as Hw1.
  destruct (check_ghostscript h spawn w) as [[[|]|e] w1]; cbn [snd] in Hw1 |- *;
    try done.
  destruct (_ && _); [| done].
  destruct (fs w1 !! p) as [n|]; [| done].
  destruct (fallback_loop _ _ _ _ _ _ _) as [r w3] eqn:El.
  apply (fallback_loop_keeps h spawn Hengine _ _ _ x Hx) in El.
  cbn [say fs] in El.
  destruct r as [[q|]|e]; cbn [snd say fs]; congruence.
Qed.

Lemma startswith_spec (pre : string) :
  ∀ s : string,
    Str.startswith s pre = true ->
    s = pre ++ substring (String.length pre) (String.length s - String.length pre) s.
Proof.
  induction pre as [|a pre IH]; intros s H.
  - cbn. by rewrite Nat.sub_0_r, substring_all.
  - destruct s as [|b s]; [done |]. cbn [Str.startswith] in H.
    apply andb_true_iff in H as [Hab Hrest].
    apply Ascii.eqb_eq in Hab as ->.
    rewrite append_cons. cbn [String.length Nat.sub substring].
    by rewrite <- IH.
Qed.

Lemma tidy_engine_writes_only_output :
  engine_writes_only_output Sample.tidy_engine.
Proof.
  intros cmd d x Hne. unfold Sample.tidy_engine.
  destruct (String.eqb (nth 1 cmd "") "--version"); [done |].
  destruct (Str.startswith (nth 24 cmd "") "-sOutputFile=") eqn:Hs; [| done].
  cbn [snd]. apply lookup_insert_ne. intros Hx. apply Hne.
  apply startswith_spec in Hs. by rewrite <- Hx.
Qed.

(** ** Measured sizes *)

(** X5. [get_file_size] never reverses the order of two files: the larger file
    never measures smaller, two files that measure differently differ in
    bytes the same way, and below 2^53 bytes the measure is the byte count
    itself.  Measuring reads the disk only. *)
Theorem get_file_size_keeps_order (p q : string) (w : world) (n m : N) :
  fs w !! p = Some n ->
  fs w !! q = Some m ->
  n <= m ->
  ∃ a b,
    get_file_size p w = (Return a, w)
    ∧ get_file_size q w = (Return b, w)
    ∧ a <= b
    ∧ (a < b -> n < m)
    ∧ (m < 2 ^ 53 -> a = n ∧ b = m).
Proof.
  intros Hp Hq Hle. exists (round53 n), (round53 m).
  rewrite !get_file_size_run, Hp, Hq.
  split; [done |]. split; [done |].
  split; [by apply round53_monotone |].
  split; [apply measured_smaller_is_smaller |].
  intros Hm. rewrite !round53_small; [done | lia | lia].
Qed.

Lemma get_file_size_keeps_order_witness :
  fs (Sample.start (<["report_compressed.pdf" := 6000]> Sample.report_disk))
     !! "report_compressed.pdf" = Some 6000
  ∧ fs (Sample.start (<["report_compressed.pdf" := 6000]> Sample.report_disk))
       !! "report.pdf" = Some 10000
  ∧ 6000 <= 10000
  ∧ ∃ a b,
      get_file_size "report_compressed.pdf"
        (Sample.start (<["report_compressed.pdf" := 6000]> Sample.report_disk))
      = (Return a,
         Sample.start (<["report_compressed.pdf" := 6000]> Sample.report_disk))
      ∧ get_file_size "report.pdf"
          (Sample.start (<["report_compressed.pdf" := 6000]> Sample.report_disk))
        = (Return b,
           Sample.start (<["report_compressed.pdf" := 6000]> Sample.report_disk))
      ∧ a <= b
      ∧ (a < b -> 6000 < 10000)
      ∧ (10000 < 2 ^ 53 -> a = 6000 ∧ b = 10000).
Proof.
  assert (Hp : fs (Sample.start (<["report_compressed.pdf" := 6000]>
                                   Sample.report_disk))
                  !! "report_compressed.pdf" = Some 6000)
    by (vm_compute; reflexivity).
  assert (Hq : fs (Sample.start (<["report_compressed.pdf" := 6000]>
                                   Sample.report_disk))
                  !! "report.pdf" = Some 10000)
    by (vm_compute; reflexivity).
  assert (Hle : 6000 <= 10000) by lia.
  split; [exact Hp |]. split; [exact Hq |]. split; [exact Hle |].
  exact (get_file_size_keeps_order _ _ _ _ _ Hp Hq Hle).
Defined.

(** X6. A missing file makes [get_file_size] raise FileNotFoundError, and a
    file of zero bytes is the only one measured as zero. *)
Theorem get_file_size_edge_cases (p : string) (w : world) :
  (fs w !! p = None -> get_file_size p w = (Raise FileNotFoundError, w))
  ∧ (get_file_size p w = (Return 0, w) <-> fs w !! p = Some 0).
Proof.
  split; [| apply measured_zero_iff_empty].
  intros Hnone. by rewrite get_file_size_run, Hnone.
Qed.

Lemma get_file_size_edge_cases_witness :
  fs (Sample.start ∅) !! "ghost.pdf" = None
  ∧ get_file_size "ghost.pdf" (Sample.start ∅)
    = (Raise FileNotFoundError, Sample.start ∅).
Proof.
  assert (Hnone : fs (Sample.start ∅) !! "ghost.pdf" = None)
    by (vm_compute; reflexivity).
  split; [exact Hnone |].
  exact (proj1 (get_file_size_edge_cases "ghost.pdf" (Sample.start ∅)) Hnone).
Defined.

(** ** More on the loop *)

Section LoopFacts.

Variable h : host.
Variable spawn : list string -> gmap string N -> launch * gmap string N.
Variables input_pdf output_pdf : string.
Variable original_size : N.

Lemma fallback_loop_exhausted (qs : list string) :
  ∀ w w' : world,
    fallback_loop h spawn input_pdf output_pdf original_size qs w
    = (Return None, w')
    <-> tried h spawn input_pdf output_pdf original_size qs w w'.
Proof.
  induction qs as [|q0 rest IH]; intros w w'.
  - split.
    + intros [= <-]. constructor.
    + intros H. by inversion H.
  - rewrite fallback_loop_cons. split.
    + destruct (attempt _ _ _ _ _ _ _) as [[v|e] w1] eqn:Ea; [| done].
      intros H.
      assert (Hv : ∀ c, v ≠ Accepted c) by (intros c ->; discriminate).
      eapply tried_cons; [exact Ea | by eapply attempt_not_accepted |].
      apply IH. by destruct v.
    + intros H. inversion H as [|q rest' w0 v w1 w2 Ea Hno Hrest]; subst.
      rewrite Ea. apply IH in Hrest.
      destruct v as [| |c]; [done | done |].
      exfalso. apply Hno. by apply (attempt_accepted _ _ _ _ _ _ _ _ _ Ea).
Qed.

Lemma fallback_loop_protocol (qs : list string) :
  ∀ (w : world) (r : result (option string)) (w' : world),
    fallback_loop h spawn input_pdf output_pdf original_size qs w = (r, w') ->
    ∃ attempted rest cmds,
      qs = (attempted ++ rest)%list
      ∧ procs w' = (procs w ++ cmds)%list
      ∧ Forall2 (compression_of input_pdf output_pdf) cmds attempted
      ∧ (r = Return None -> rest = []).
Proof.
  induction qs as [|q0 rest IH]; intros w r w' H.
  - injection H as <- <-. exists [], [], [].
    split; [done |]. split; [by rewrite app_nil_r |]. split; [constructor | done].
  - rewrite fallback_loop_cons in H.
    destruct (attempt _ _ _ _ _ _ _) as [[v|e] w1] eqn:Ea.
    + pose proof (attempt_effects _ _ _ _ _ _ _ _ _ Ea) as Hp.
      assert (Hcmd : compression_of input_pdf output_pdf
                       (gs_command (gs_binary_on h (fs w)) input_pdf output_pdf q0)
                       q0) by by eexists.
      assert (Hgo : fallback_loop h spawn input_pdf output_pdf original_size rest w1
                    = (r, w') ->
                ∃ attempted rest' cmds,
                  (q0 :: rest = attempted ++ rest')%list
                  ∧ procs w' = (procs w ++ cmds)%list
                  ∧ Forall2 (compression_of input_pdf output_pdf) cmds attempted
                  ∧ (r = Return None -> rest' = [])).
      { intros Hrest.
        destruct (IH _ _ _ Hrest) as (att & rest' & cmds & -> & Hprocs & Hall & Hend).
        exists (q0 :: att), rest',
          (gs_command (gs_binary_on h (fs w)) input_pdf output_pdf q0 :: cmds).
        split; [done |]. split; [by rewrite Hprocs, Hp, <- app_assoc |].
        split; [by constructor | done]. }
      destruct v; [by apply Hgo | by apply Hgo |].
      injection H as <- <-.
      exists [q0], rest,
        [gs_command (gs_binary_on h (fs w)) input_pdf output_pdf q0].
      split; [done |]. split; [exact Hp |].
      split; [by repeat constructor | done].
    + injection H as <- <-.
      pose proof (attempt_effects _ _ _ _ _ _ _ _ _ Ea) as Hp.
      exists [q0], rest,
        [gs_command (gs_binary_on h (fs w)) input_pdf output_pdf q0].
      split; [done |]. split; [exact Hp |].
      split; [| done]. repeat constructor. by eexists.
Qed.

Lemma attempt_raises (quality : string) (w : world) (e : exn) (w' : world) :
  attempt h spawn input_pdf output_pdf original_size quality w = (Raise e, w') ->
  e = UnicodeDecodeError ∨ e = FileNotFoundError
  ∨ (e = ZeroDivisionError ∧ original_size = 0).
Proof.
  rewrite attempt_run.
  destruct (compress_pdf _ _ _ _ _ _) as [rb w1] eqn:Ec.
  destruct rb as [[|]|e'].
  - destruct (fs w1 !! output_pdf) as [n|]; [| intros [= <- _]; tauto].
    destruct (N.eqb_spec original_size 0); [intros [= <- _]; tauto |].
    by destruct (round53 n <? original_size).
  - done.
  - intros [= <- _]. left.
    assert (Hf : fst (compress_pdf h spawn input_pdf output_pdf quality
                        (say (MsgTrying quality) w)) = Raise e')
      by by rewrite Ec.
    by apply compress_pdf_raises in Hf as [-> _].
Qed.

Lemma fallback_loop_raises (qs : list string) :
  ∀ (w : world) (e : exn) (w' : world),
    fallback_loop h spawn input_pdf output_pdf original_size qs w = (Raise e, w') ->
    e = UnicodeDecodeError ∨ e = FileNotFoundError
    ∨ (e = ZeroDivisionError ∧ original_size = 0).
Proof.
  induction qs as [|q0 rest IH]; intros w e w' H; [done |].
  rewrite fallback_loop_cons in H.
  destruct (attempt _ _ _ _ _ _ _) as [[v|e0] w1] eqn:Ea.
  - destruct v; [exact (IH _ _ _ H) | exact (IH _ _ _ H) | done].
  - injection H as <- <-. exact (attempt_raises _ _ _ _ Ea).
Qed.

Hypothesis diagnostics : diagnostics_decode spawn.
Hypothesis writes : success_writes_output spawn.
Hypothesis nonzero : original_size ≠ 0.

Lemma attempt_returns (quality : string) (w : world) :
  ∃ v w',
    attempt h spawn input_pdf output_pdf original_size quality w = (Return v, w').
Proof.
  rewrite attempt_run, compress_pdf_run. cbv zeta. cbn [say fs].
  set (cmd := gs_command _ _ _ _).
  pose proof (diagnostics cmd (fs w)) as Hdec.
  pose proof (writes (gs_binary_on h (fs w)) input_pdf output_pdf quality (fs w))
    as Hout. fold cmd in Hout.
  destruct (fst (spawn cmd (fs w))) as [p| |what]; [| by eexists _, _ ..].
  destruct (Z.eqb_spec (returncode p) 0) as [Hz|Hnz].
  - destruct (Hout p eq_refl Hz) as [n Hn]. cbn [fs]. rewrite Hn.
    apply N.eqb_neq in nonzero. rewrite nonzero.
    destruct (round53 n <? original_size); by eexists _, _.
  - rewrite (Hdec p eq_refl). by eexists _, _.
Qed.

Lemma fallback_loop_returns (qs : list string) :
  ∀ w : world,
    ∃ r w',
      fallback_loop h spawn input_pdf output_pdf original_size qs w
      = (Return r, w').
Proof.
  induction qs as [|q0 rest IH]; intros w; [by eexists _, _ |].
  rewrite fallback_loop_cons.
  destruct (attempt_returns q0 w) as (v & w1 & ->).
  destruct v; try apply IH. by eexists _, _.
Qed.

End LoopFacts.

(** X7. The loop over the three presets runs out exactly when every preset
    was attempted, in order, and at none of them the driver succeeded with
    an output measuring strictly less than the original. *)
Theorem exhausted_iff_no_preset_shrinks
    (h : host) (spawn : list string -> gmap string N -> launch * gmap string N)
    (input_pdf output_pdf : string) (original_size : N) (w w' : world) :
  fallback_loop h spawn input_pdf output_pdf original_size quality_levels w
  = (Return None, w')
  <-> tried h spawn input_pdf output_pdf original_size quality_levels w w'.
Proof. apply fallback_loop_exhausted. Qed.

(** X8. When the loop accepts a preset, the file it leaves at the output path
    has strictly fewer bytes than the input had when it was measured:
    rounding the sizes to binary64 never lets a file through that is not
    smaller. *)
Theorem accepted_output_has_fewer_bytes_than_input
    (h : host) (spawn : list string -> gmap string N -> launch * gmap string N)
    (input_pdf output_pdf : string) (input_bytes : N)
    (w : world) (q : string) (w' : world) :
  fallback_loop h spawn input_pdf output_pdf (round53 input_bytes)
    quality_levels w = (Return (Some q), w') ->
  ∃ n, fs w' !! output_pdf = Some n ∧ n < input_bytes.
Proof.
  intros H.
  destruct (fallback_loop_accepts _ _ _ _ _ _ _ _ _ H)
    as (pre & post & wq & c & cmds & _ & _ & _ & Ha & _).
  by eapply accepted_output_has_fewer_bytes.
Qed.

Lemma accepted_output_has_fewer_bytes_than_input_witness :
  fallback_loop Sample.linux Sample.report_engine "report.pdf"
    "report_compressed.pdf" (round53 10000) quality_levels Sample.report_begun
  = (Return (Some "ebook"),
     World (<["report_compressed.pdf" := 6000]> Sample.report_disk)
       [["gs"; "--version"];
        gs_command "gs" "report.pdf" "report_compressed.pdf" "printer";
        gs_command "gs" "report.pdf" "report_compressed.pdf" "ebook"]
       [MsgOriginalSize 10000; MsgCompressing;
        MsgTrying "printer"; MsgNextLevel; MsgTrying "ebook";
        MsgSuccess "ebook" 10000 6000 (percent 10000 6000)
          "report_compressed.pdf"])
  ∧ ∃ n,
      fs (World (<["report_compressed.pdf" := 6000]> Sample.report_disk)
            [["gs"; "--version"];
             gs_command "gs" "report.pdf" "report_compressed.pdf" "printer";
             gs_command "gs" "report.pdf" "report_compressed.pdf" "ebook"]
            [MsgOriginalSize 10000; MsgCompressing;
             MsgTrying "printer"; MsgNextLevel; MsgTrying "ebook";
             MsgSuccess "ebook" 10000 6000 (percent 10000 6000)
               "report_compressed.pdf"])
         !! "report_compressed.pdf" = Some n
      ∧ n < 10000.
Proof.
  assert (Hrun :
    fallback_loop Sample.linux Sample.report_engine "report.pdf"
      "report_compressed.pdf" (round53 10000) quality_levels Sample.report_begun
    = (Return (Some "ebook"),
       World (<["report_compressed.pdf" := 6000]> Sample.report_disk)
         [["gs"; "--version"];
          gs_command "gs" "report.pdf" "report_compressed.pdf" "printer";
          gs_command "gs" "report.pdf" "report_compressed.pdf" "ebook"]
         [MsgOriginalSize 10000; MsgCompressing;
          MsgTrying "printer"; MsgNextLevel; MsgTrying "ebook";
          MsgSuccess "ebook" 10000 6000 (percent 10000 6000)
            "report_compressed.pdf"]))
    by (vm_compute; reflexivity).
  split; [exact Hrun |].
  exact (accepted_output_has_fewer_bytes_than_input _ _ _ _ _ _ _ _ Hrun).
Defined.

(** X9. For files below 2^53 bytes and a non-empty input, the verdict after a
    successful driver call is the comparison of the byte counts: the output
    is accepted exactly when it has strictly fewer bytes than the input. *)
Theorem acceptance_compares_bytes
    (h : host) (spawn : list string -> gmap string N -> launch * gmap string N)
    (input_pdf output_pdf : string) (input_bytes : N)
    (quality : string) (w w1 : world) (n : N) :
  compress_pdf h spawn input_pdf output_pdf quality (say (MsgTrying quality) w)
  = (Return true, w1) ->
  fs w1 !! output_pdf = Some n ->
  n < 2 ^ 53 ->
  input_bytes < 2 ^ 53 ->
  input_bytes ≠ 0 ->
  (fst (attempt h spawn input_pdf output_pdf (round53 input_bytes) quality w)
   = Return (Accepted n) <-> n < input_bytes)
  ∧ (fst (attempt h spawn input_pdf output_pdf (round53 input_bytes) quality w)
     = Return (NotSmaller n) <-> input_bytes <= n).
Proof.
  intros Hc Hn Hsmall Hin Hnz.
  rewrite attempt_run, Hc, Hn, !round53_small by done.
  apply N.eqb_neq in Hnz. rewrite Hnz.
  destruct (N.ltb_spec n input_bytes); cbn [fst]; split; split;
    try done; try lia; intros [=].
Qed.

Lemma acceptance_compares_bytes_witness :
  compress_pdf Sample.linux Sample.report_engine "report.pdf"
    "report_compressed.pdf" "printer" (say (MsgTrying "printer") Sample.report_begun)
  = (Return true, Sample.report_printer_done)
  ∧ fs Sample.report_printer_done !! "report_compressed.pdf" = Some 10500
  ∧ 10500 < 2 ^ 53
  ∧ 10000 < 2 ^ 53
  ∧ 10000 ≠ 0
  ∧ (fst (attempt Sample.linux Sample.report_engine "report.pdf"
            "report_compressed.pdf" (round53 10000) "printer" Sample.report_begun)
     = Return (NotSmaller 10500) <-> 10000 <= 10500).
Proof.
  assert (Hc : compress_pdf Sample.linux Sample.report_engine "report.pdf"
                 "report_compressed.pdf" "printer"
                 (say (MsgTrying "printer") Sample.report_begun)
               = (Return true, Sample.report_printer_done))
    by (vm_compute; reflexivity).
  assert (Hn : fs Sample.report_printer_done !! "report_compressed.pdf" = Some 10500)
    by (vm_compute; reflexivity).
  assert (H1 : 10500 < 2 ^ 53) by (vm_compute; reflexivity).
  assert (H2 : 10000 < 2 ^ 53) by (vm_compute; reflexivity).
  assert (H3 : 10000 ≠ 0) by lia.
  split; [exact Hc |]. split; [exact Hn |]. split; [exact H1 |].
  split; [exact H2 |]. split; [exact H3 |].
  exact (proj2 (acceptance_compares_bytes Sample.linux Sample.report_engine
                  "report.pdf" "report_compressed.pdf" 10000 "printer"
                  Sample.report_begun Sample.report_printer_done 10500
                  Hc Hn H1 H2 H3)).
Defined.

(** ** The subprocess calls of a run *)

(** X10. In any run [main] calls [subprocess.run] at most four times: nothing at
    all, or the version query followed by the compression commands of the
    first presets of ['printer'; 'ebook'; 'screen'], one call each and in
    that order, all reading the given input and writing the one output
    path.  No preset is tried twice and none is skipped. *)
Theorem main_subprocess_protocol
    (h : host) (spawn : list string -> gmap string N -> launch * gmap string N)
    (argv : list string) (w : world) :
  ∃ cmds,
    procs (snd (main h spawn argv w)) = (procs w ++ cmds)%list
    ∧ (List.length cmds <= 4)%nat
    ∧ (cmds = []
       ∨ ∃ more attempted rest,
           cmds = version_query h w :: more
           ∧ quality_levels = (attempted ++ rest)%list
           ∧ Forall2 (compression_of (nth 1 argv "")
                        (output_name h (nth 1 argv ""))) more attempted).
Proof.
  destruct (Nat.eq_dec (List.length argv) 2%nat) as [Hlen|Hlen].
  2:{ rewrite wrong_arity_usage by done. exists [].
      split; [by rewrite app_nil_r |]. split; [cbn; lia | by left]. }
  destruct argv as [|prog [|p [|]]]; try done. cbn [nth].
  assert (Hq : ∃ more attempted rest,
             [version_query h w] = version_query h w :: more
             ∧ quality_levels = (attempted ++ rest)%list
             ∧ Forall2 (compression_of p (output_name h p)) more attempted).
  { exists [], [], quality_levels. split; [done |]. split; [done | constructor]. }
  rewrite main_run.
  pose proof (check_ghostscript_procs h spawn w) as Hp.
  destruct (check_ghostscript h spawn w) as [[[|]|e] w1]; cbn [snd] in Hp |- *.
  2,3: exists [version_query h w]; split; [done |]; split; [cbn; lia | by right].
  destruct (_ && _).
  2:{ exists [version_query h w]. split; [done |]. split; [cbn; lia | by right]. }
  destruct (fs w1 !! p) as [n|].
  2:{ exists [version_query h w]. split; [done |]. split; [cbn; lia | by right]. }
  destruct (fallback_loop _ _ _ _ _ _ _) as [r w3] eqn:El.
  destruct (fallback_loop_protocol _ _ _ _ _ _ _ _ _ El)
    as (attempted & rest & cmds & Hqs & Hprocs & Hall & _).
  cbn [say procs] in Hprocs.
  assert (Hw3 : procs w3 = (procs w ++ version_query h w :: cmds)%list)
    by (rewrite Hprocs, Hp, <- app_assoc; done).
  assert (Hlen3 : (List.length cmds <= 3)%nat).
  { apply Forall2_length in Hall. rewrite Hall.
    assert (Hl : List.length quality_levels = 3%nat) by done.
    rewrite Hqs, length_app in Hl. lia. }
  exists (version_query h w :: cmds).
  split; [by destruct r as [[q|]|e] |].
  split; [cbn; lia |]. right. by exists cmds, attempted, rest.
Qed.

(** ** Exceptions *)

Lemma main_raises
    (h : host) (spawn : list string -> gmap string N -> launch * gmap string N)
    (argv : list string) (w : world) (e : exn) (w' : world) :
  main h spawn argv w = (Raise e, w') ->
  e = UnicodeDecodeError
  ∨ e = FileNotFoundError
  ∨ (e = ZeroDivisionError
     ∧ fs (snd (check_ghostscript h spawn w)) !! nth 1 argv "" = Some 0).
Proof.
  destruct (Nat.eq_dec (List.length argv) 2%nat) as [Hlen|Hlen];
    [| by rewrite wrong_arity_usage].
  destruct argv as [|prog [|p [|]]]; try done. cbn [nth].
  rewrite main_run.
  pose proof (check_ghostscript_total h spawn w) as Htotal.
  destruct (check_ghostscript h spawn w) as [[[|]|e0] w1]; cbn [fst snd] in *;
    [| done | by destruct Htotal].
  destruct (_ && _); [| done].
  destruct (fs w1 !! p) as [n|] eqn:En; [| intros [= <- _]; tauto].
  destruct (fallback_loop _ _ _ _ _ _ _) as [[[q|]|e1] w3] eqn:El; try done.
  intros [= <- _].
  destruct (fallback_loop_raises _ _ _ _ _ _ _ _ _ El) as [? | [? | [? Hz]]];
    [tauto | tauto |].
  right. right. split; [done |].
  apply (proj1 (round53_zero n)) in Hz. by rewrite Hz.
Qed.

(** X11. [main] ends with ZeroDivisionError only for an empty input: if
    the run ends with that exception, the input path held a file of zero
    bytes when it was validated and measured (after the engine check), and
    at least one compression command had been started. *)
Theorem zero_division_only_for_empty_input
    (h : host) (spawn : list string -> gmap string N -> launch * gmap string N)
    (argv : list string) (w w' : world) :
  main h spawn argv w = (Raise ZeroDivisionError, w') ->
  fs (snd (check_ghostscript h spawn w)) !! nth 1 argv "" = Some 0
  ∧ ∃ cmd more,
      procs w' = (procs w ++ version_query h w :: cmd :: more)%list
      ∧ ∃ q, compression_of (nth 1 argv "") (output_name h (nth 1 argv "")) cmd q.
Proof.
  intros Hrun. split.
  - destruct (main_raises _ _ _ _ _ _ Hrun) as [? | [? | [_ Hz]]]; done.
  - destruct (Nat.eq_dec (List.length argv) 2%nat) as [Hlen|Hlen];
      [| by rewrite wrong_arity_usage in Hrun].
    destruct argv as [|prog [|p [|]]]; try done. cbn [nth].
    rewrite main_run in Hrun.
    pose proof (check_ghostscript_procs h spawn w) as Hp.
    pose proof (check_ghostscript_total h spawn w) as Htotal.
    destruct (check_ghostscript h spawn w) as [[[|]|e0] w1];
      cbn [fst snd] in Hp, Htotal; [| done | by destruct Htotal].
    destruct (_ && _); [| done].
    destruct (fs w1 !! p) as [n|]; [| done].
    destruct (fallback_loop _ _ _ _ _ _ _) as [[[q|]|e1] w3] eqn:El; try done.
    injection Hrun as -> <-.
    unfold quality_levels in El. rewrite fallback_loop_cons in El.
    destruct (attempt _ _ _ _ _ _ _) as [rv wa] eqn:Ea.
    apply attempt_effects in Ea. cbn [say procs fs] in Ea.
    assert (Hmore : ∃ more, procs w3 = (procs wa ++ more)%list).
    { destruct rv as [[| |c]|e].
      - destruct (fallback_loop_protocol _ _ _ _ _ _ _ _ _ El)
          as (? & ? & more & _ & Hm & _). by exists more.
      - destruct (fallback_loop_protocol _ _ _ _ _ _ _ _ _ El)
          as (? & ? & more & _ & Hm & _). by exists more.
      - discriminate.
      - injection El as _ <-. exists []. by rewrite app_nil_r. }
    destruct Hmore as [more Hmore].
    exists (gs_command (gs_binary_on h (fs w1)) p (output_name h p) "printer"),
      more.
    split; [by rewrite Hmore, Ea, Hp, <- !app_assoc |].
    exists "printer". by eexists.
Qed.

Lemma zero_division_only_for_empty_input_witness :
  main Sample.linux Sample.report_engine ["pdf_compressor.py"; "empty.pdf"]
    (Sample.start Sample.empty_disk)
  = (Raise ZeroDivisionError, Sample.empty_printer_done)
  ∧ fs (snd (check_ghostscript Sample.linux Sample.report_engine
               (Sample.start Sample.empty_disk)))
       !! nth 1 ["pdf_compressor.py"; "empty.pdf"] "" = Some 0.
Proof.
  assert (Hrun :
    main Sample.linux Sample.report_engine ["pdf_compressor.py"; "empty.pdf"]
      (Sample.start Sample.empty_disk)
    = (Raise ZeroDivisionError, Sample.empty_printer_done))
    by (vm_compute; reflexivity).
  split; [exact Hrun |].
  exact (proj1 (zero_division_only_for_empty_input _ _ _ _ _ Hrun)).
Defined.

(** X12. The driver takes the exit status for the result and never looks for
    the output file: if the engine ends 'printer' with status 0 and no file
    is at the output path, [main] ends with FileNotFoundError when it
    measures the output, and the remaining presets are never attempted. *)
Theorem success_without_output_ends_the_run
    (h : host) (spawn : list string -> gmap string N -> launch * gmap string N)
    (prog p : string) (w wv wc : world) (n : N) :
  check_ghostscript h spawn w = (Return true, wv) ->
  fs wv !! p = Some n ->
  Str.endswith (Str.lower p) ".pdf" = true ->
  compress_pdf h spawn p (output_name h p) "printer"
    (say (MsgTrying "printer")
       (say MsgCompressing (say (MsgOriginalSize (round53 n)) wv)))
  = (Return true, wc) ->
  fs wc !! output_name h p = None ->
  main h spawn [prog; p] w = (Raise FileNotFoundError, wc)
  ∧ procs wc
    = (procs w
       ++ [version_query h w;
           gs_command (gs_binary_on h (fs wv)) p (output_name h p) "printer"])%list.
Proof.
  intros Hgs Hp Hext Hdrv Hnone. split.
  - rewrite main_run, Hgs. unfold exists_on. rewrite Hp, Hext. cbn [andb].
    unfold quality_levels.
    by rewrite fallback_loop_cons, attempt_run, Hdrv, Hnone.
  - apply compress_pdf_effects in Hdrv as [-> _]. cbn [say procs fs].
    pose proof (check_ghostscript_procs h spawn w) as Hpv.
    rewrite Hgs in Hpv. cbn [snd] in Hpv. by rewrite Hpv, <- app_assoc.
Qed.

Lemma success_without_output_ends_the_run_witness :
  check_ghostscript Sample.linux Sample.silent_engine
    (Sample.start Sample.report_disk)
  = (Return true, Sample.report_checked)
  ∧ fs Sample.report_checked !! "report.pdf" = Some 10000
  ∧ Str.endswith (Str.lower "report.pdf") ".pdf" = true
  ∧ main Sample.linux Sample.silent_engine ["pdf_compressor.py"; "report.pdf"]
      (Sample.start Sample.report_disk)
    = (Raise FileNotFoundError,
       World Sample.report_disk [["gs"; "--version"]; Sample.printer_command]
         [MsgOriginalSize 10000; MsgCompressing; MsgTrying "printer"]).
Proof.
  assert (Hgs : check_ghostscript Sample.linux Sample.silent_engine
                  (Sample.start Sample.report_disk)
                = (Return true, Sample.report_checked))
    by (vm_compute; reflexivity).
  assert (Hp : fs Sample.report_checked !! "report.pdf" = Some 10000)
    by (vm_compute; reflexivity).
  assert (Hext : Str.endswith (Str.lower "report.pdf") ".pdf" = true)
    by (vm_compute; reflexivity).
  split; [exact Hgs |]. split; [exact Hp |]. split; [exact Hext |].
  refine (proj1 (success_without_output_ends_the_run Sample.linux
                   Sample.silent_engine "pdf_compressor.py" "report.pdf"
                   (Sample.start Sample.report_disk) Sample.report_checked
                   (World Sample.report_disk
                      [["gs"; "--version"]; Sample.printer_command]
                      [MsgOriginalSize 10000; MsgCompressing; MsgTrying "printer"])
                   10000 Hgs Hp Hext _ _));
    vm_compute; reflexivity.
Defined.

Lemma main_returns
    (h : host) (spawn : list string -> gmap string N -> launch * gmap string N)
    (argv : list string) (w : world) :
  diagnostics_decode spawn ->
  success_writes_output spawn ->
  fs (snd (check_ghostscript h spawn w)) !! nth 1 argv "" ≠ Some 0 ->
  ∃ w', main h spawn argv w = (Return tt, w').
Proof.
  intros Hdec Hout Hnz.
  destruct (Nat.eq_dec (List.length argv) 2%nat) as [Hlen|Hlen];
    [| rewrite wrong_arity_usage by done; by eexists].
  destruct argv as [|prog [|p [|]]]; try done. cbn [nth] in Hnz.
  rewrite main_run.
  pose proof (check_ghostscript_total h spawn w) as Htotal.
  destruct (check_ghostscript h spawn w) as [[[|]|e0] w1]; cbn [fst snd] in *;
    [| by eexists | by destruct Htotal].
  unfold exists_on.
  destruct (fs w1 !! p) as [n|] eqn:En; cbn [andb]; [| by eexists].
  destruct (Str.endswith _ _); [| by eexists].
  assert (Hround : round53 n ≠ 0).
  { intros Hz. apply (proj1 (round53_zero n)) in Hz. by subst. }
  destruct (fallback_loop_returns h spawn p (output_name h p) (round53 n)
              Hdec Hout Hround quality_levels
              (say MsgCompressing (say (MsgOriginalSize (round53 n)) w1)))
    as (r & w3 & ->).
  destruct r; by eexists.
Qed.

(** X13. None of the exceptions of the program's own computations leaves
    [main] (no UnicodeDecodeError from decoding a diagnostic, no
    FileNotFoundError from measuring an output that is not there, no
    ZeroDivisionError from the percentage), whatever its arguments, when
    the engine's diagnostics are valid UTF-8, an engine run that ends with
    status 0 leaves a file at the output path it was given, and the input
    file is not empty when it is measured. *)
Theorem main_raises_none_of_its_exceptions
    (h : host) (spawn : list string -> gmap string N -> launch * gmap string N)
    (argv : list string) (w : world) :
  diagnostics_decode spawn ->
  success_writes_output spawn ->
  fs (snd (check_ghostscript h spawn w)) !! nth 1 argv "" ≠ Some 0 ->
  fst (main h spawn argv w) ≠ Raise UnicodeDecodeError
  ∧ fst (main h spawn argv w) ≠ Raise FileNotFoundError
  ∧ fst (main h spawn argv w) ≠ Raise ZeroDivisionError.
Proof.
  intros Hdec Hout Hnz.
  destruct (main_returns h spawn argv w Hdec Hout Hnz) as [w' ->].
  by cbn [fst].
Qed.

Lemma tidy_engine_diagnostics_decode : diagnostics_decode Sample.tidy_engine.
Proof.
  intros cmd d p. unfold Sample.tidy_engine.
  destruct (String.eqb _ _); [by intros [= <-] |].
  destruct (Str.startswith _ _); by intros [= <-].
Qed.

Lemma tidy_engine_success_writes_output :
  success_writes_output Sample.tidy_engine.
Proof.
  intros gs_binary input_path output_path quality d p _ _.
  unfold Sample.tidy_engine, Sample.output_of, gs_command.
  cbn [nth String.eqb Ascii.eqb Bool.eqb].
  cbv [String.append]. fold String.append.
  cbn [Str.startswith Ascii.eqb Bool.eqb andb snd String.length substring Nat.sub].
  assert (Hempty : Str.startswith output_path "" = true) by by destruct output_path.
  rewrite Nat.sub_0_r, substring_all, Hempty. cbn [snd].
  rewrite lookup_insert_eq. by eexists.
Qed.

Lemma main_raises_none_of_its_exceptions_witness :
  diagnostics_decode Sample.tidy_engine
  ∧ success_writes_output Sample.tidy_engine
  ∧ fs (snd (check_ghostscript Sample.linux Sample.tidy_engine
               (Sample.start Sample.report_disk)))
       !! nth 1 ["pdf_compressor.py"; "report.pdf"] "" ≠ Some 0
  ∧ fst (main Sample.linux Sample.tidy_engine ["pdf_compressor.py"; "report.pdf"]
           (Sample.start Sample.report_disk)) ≠ Raise ZeroDivisionError.
Proof.
  assert (Hnz : fs (snd (check_ghostscript Sample.linux Sample.tidy_engine
                           (Sample.start Sample.report_disk)))
                   !! nth 1 ["pdf_compressor.py"; "report.pdf"] "" ≠ Some 0)
    by (intros H; vm_compute in H; discriminate).
  split; [exact tidy_engine_diagnostics_decode |].
  split; [exact tidy_engine_success_writes_output |].
  split; [exact Hnz |].
  exact (proj2 (proj2 (main_raises_none_of_its_exceptions Sample.linux
                         Sample.tidy_engine ["pdf_compressor.py"; "report.pdf"]
                         (Sample.start Sample.report_disk)
                         tidy_engine_diagnostics_decode
                         tidy_engine_success_writes_output Hnz))).
Defined.

(** ** The version text *)

Lemma lstrip_leading_spaces (ws s : string) :
  only_spaces ws = true -> Str.lstrip (ws ++ s) = Str.lstrip s.
Proof.
  induction ws as [|c ws IH]; [done |]. cbn [only_spaces].
  intros [Hc Hws]%andb_true_iff. rewrite append_cons. cbn [Str.lstrip].
  rewrite Hc. by apply IH.
Qed.

Lemma rstrip_keeps (c : ascii) (s : string) :
  Str.is_space c = false -> Str.rstrip (String c s) = String c (Str.rstrip s).
Proof.
  intros Hc. cbn [Str.rstrip]. rewrite Hc. by destruct (Str.rstrip s).
Qed.

Lemma startswith_append (pre s : string) : Str.startswith (pre ++ s) pre = true.
Proof.
  induction pre as [|c pre IH]; [by destruct s |].
  rewrite append_cons. cbn [Str.startswith]. by rewrite Ascii.eqb_refl, IH.
Qed.

Lemma version_text_accepted (ws rest : string) :
  only_spaces ws = true ->
  Str.startswith (Str.strip (ws ++ "10.04" ++ rest)) "10.04" = true.
Proof.
  intros Hws. unfold Str.strip. rewrite (lstrip_leading_spaces _ _ Hws).
  change ("10.04" ++ rest)
    with (String "1" (String "0" (String "." (String "0" (String "4" rest))))).
  cbn [Str.lstrip]. change (Str.is_space "1") with false. cbv iota.
  rewrite !rstrip_keeps by reflexivity.
  apply (startswith_append "10.04").
Qed.

(** X14. The version check passes for every version text that, after leading
    whitespace, begins with '10.04', whatever follows ('10.04.0', '10.04.1',
    and '10.045' as well) and whatever the exit status and the diagnostics
    of the query are; it then prints nothing. *)
Theorem version_prefix_is_accepted
    (h : host) (spawn : list string -> gmap string N -> launch * gmap string N)
    (w : world) (p : completed) (ws rest : string) :
  version_launch h spawn w = Exited p ->
  stdout p = ws ++ "10.04" ++ rest ->
  only_spaces ws = true ->
  check_ghostscript h spawn w
  = (Return true,
     World (snd (spawn (version_query h w) (fs w)))
       (procs w ++ [version_query h w]) (console w)).
Proof.
  intros Hl Hout Hws. rewrite check_ghostscript_run, Hl. cbv zeta.
  by rewrite Hout, version_text_accepted.
Qed.

Lemma version_prefix_is_accepted_witness :
  version_launch Sample.linux
    (Sample.engine (Exited Sample.patch_release) (fun _ => (Sample.exit0, None)))
    (Sample.start ∅) = Exited Sample.patch_release
  ∧ stdout Sample.patch_release = " " ++ "10.04" ++ ".1"
  ∧ only_spaces " " = true
  ∧ check_ghostscript Sample.linux
      (Sample.engine (Exited Sample.patch_release) (fun _ => (Sample.exit0, None)))
      (Sample.start ∅)
    = (Return true,
       World (snd (Sample.engine (Exited Sample.patch_release)
                     (fun _ => (Sample.exit0, None))
                     (version_query Sample.linux (Sample.start ∅))
                     (fs (Sample.start ∅))))
         (procs (Sample.start ∅) ++ [version_query Sample.linux (Sample.start ∅)])
         (console (Sample.start ∅))).
Proof.
  assert (Hl : version_launch Sample.linux
                 (Sample.engine (Exited Sample.patch_release)
                    (fun _ => (Sample.exit0, None)))
                 (Sample.start ∅) = Exited Sample.patch_release)
    by (vm_compute; reflexivity).
  assert (Hout : stdout Sample.patch_release = " " ++ "10.04" ++ ".1")
    by reflexivity.
  assert (Hws : only_spaces " " = true) by reflexivity.
  split; [exact Hl |]. split; [exact Hout |]. split; [exact Hws |].
  exact (version_prefix_is_accepted Sample.linux _ (Sample.start ∅)
           Sample.patch_release " " ".1" Hl Hout Hws).
Defined.

(** ** Ordinary file names *)

Lemma free_of_append (c : ascii) (a b : string) :
  free_of c (a ++ b) = free_of c a && free_of c b.
Proof.
  induction a as [|x a IH]; [done |]. rewrite append_cons. cbn [free_of].
  by rewrite IH, andb_assoc.
Qed.

Lemma rfind_from_free (c : ascii) (s : string) :
  ∀ i : Z, free_of c s = true -> Str.rfind_from i c s = (-1)%Z.
Proof.
  induction s as [|a s IH]; intros i H; [done |].
  cbn [free_of] in H. apply andb_true_iff in H as [Ha Hs].
  cbn [Str.rfind_from]. cbv zeta. rewrite (IH _ Hs). cbn [Z.leb Z.compare].
  by destruct (Ascii.eqb a c).
Qed.

Lemma rfind_from_upper (c : ascii) (s : string) :
  ∀ i : Z, (Str.rfind_from i c s < i + Z.of_nat (String.length s))%Z
           ∨ Str.rfind_from i c s = (-1)%Z.
Proof.
  induction s as [|a s IH]; intros i; [by right |].
  cbn [Str.rfind_from String.length]. cbv zeta.
  destruct (IH (i + 1)%Z) as [Hlt | Hnone].
  - destruct (Z.leb_spec 0 (Str.rfind_from (i + 1) c s)); [left; lia |].
    destruct (Ascii.eqb a c); [left; lia | by right].
  - rewrite Hnone. cbn [Z.leb Z.compare].
    destruct (Ascii.eqb a c); [left; lia | by right].
Qed.

(** What follows the last [c] does not count. *)
Lemma rfind_from_append_free (c : ascii) (a b : string) :
  ∀ i : Z, free_of c b = true ->
    Str.rfind_from i c (a ++ b) = Str.rfind_from i c a.
Proof.
  induction a as [|x a IH]; intros i Hb; [by apply rfind_from_free |].
  rewrite append_cons. cbn [Str.rfind_from]. cbv zeta. by rewrite IH.
Qed.

(** A [c] at the head of [b], and none after it, is the last one. *)
Lemma rfind_from_append_last (c : ascii) (a b : string) :
  ∀ i : Z, (0 <= i)%Z -> free_of c b = true ->
    Str.rfind_from i c (a ++ String c b) = (i + Z.of_nat (String.length a))%Z.
Proof.
  induction a as [|x a IH]; intros i Hi Hb.
  - change ("" ++ String c b) with (String c b).
    cbn [Str.rfind_from String.length]. cbv zeta.
    rewrite (rfind_from_free _ _ _ Hb). cbn [Z.leb Z.compare].
    rewrite Ascii.eqb_refl. cbn. lia.
  - rewrite append_cons. cbn [Str.rfind_from String.length]. cbv zeta.
    rewrite IH by (done || lia).
    destruct (Z.leb_spec 0 (i + 1 + Z.of_nat (String.length a))); lia.
Qed.

Lemma name_before_dot_found (p : string) (fuel : nat) :
  ∀ (start j : nat) (c : ascii),
    (start <= j < start + fuel)%nat ->
    String.get j p = Some c -> c ≠ "."%char ->
    Str.name_before_dot fuel start p = true.
Proof.
  induction fuel as [|fuel IH]; intros start j c Hj Hget Hc; [lia |].
  cbn [Str.name_before_dot].
  destruct (String.get start p) as [a|] eqn:Ea; [| done].
  destruct (Ascii.eqb_spec a ".") as [->|]; [| done].
  apply (IH (S start) j c); [| done | done].
  assert (j ≠ start) by (intros ->; congruence). lia.
Qed.

Lemma only_char_false (c : ascii) (s : string) :
  only_char c s = false ->
  ∃ (t : nat) (a : ascii), String.get t s = Some a ∧ a ≠ c.
Proof.
  induction s as [|x s IH]; [done |]. cbn [only_char].
  destruct (Ascii.eqb_spec x c) as [->|Hne]; cbn [andb].
  - intros H. destruct (IH H) as (t & a & Hget & Ha). by exists (S t), a.
  - intros _. by exists 0%nat, x.
Qed.

Lemma substring_append_left (a b : string) :
  substring 0 (String.length a) (a ++ b) = a.
Proof.
  induction a as [|x a IH]; [by destruct b |].
  rewrite append_cons. cbn [String.length substring]. by rewrite IH.
Qed.

Lemma splitext_ordinary (nt : bool) (dir name ext : string) :
  separator_free name = true ->
  separator_free ext = true ->
  free_of "." ext = true ->
  only_char "." name = false ->
  fst (Str.splitext nt (dir ++ name ++ "." ++ ext)) = dir ++ name.
Proof.
  intros Hname Hext Hdot Hnondot.
  unfold separator_free in Hname, Hext.
  apply andb_true_iff in Hname as [Hname1 Hname2].
  apply andb_true_iff in Hext as [Hext1 Hext2].
  set (p := dir ++ name ++ "." ++ ext).
  assert (Hp : p = (dir ++ name) ++ String "." ext)
    by (unfold p; by rewrite append_associative).
  assert (Hfree : ∀ c, free_of c name = true -> free_of c ext = true ->
                       c ≠ "."%char -> free_of c (name ++ "." ++ ext) = true).
  { intros c H1 H2 Hc. rewrite free_of_append, H1.
    change ("." ++ ext) with (String "." ext). cbn [free_of andb].
    rewrite H2. by destruct (Ascii.eqb_spec "." c) as [<-|]. }
  assert (Hdotidx : Str.rfind "." p = Z.of_nat (String.length (dir ++ name))).
  { unfold Str.rfind. rewrite Hp, rfind_from_append_last by (done || lia). lia. }
  assert (Hsep : ∀ c, free_of c name = true -> free_of c ext = true ->
                      c ≠ "."%char ->
                      (Str.rfind c p < Z.of_nat (String.length dir))%Z).
  { intros c H1 H2 Hc. unfold Str.rfind, p.
    rewrite rfind_from_append_free by by apply Hfree.
    destruct (rfind_from_upper c dir 0) as [H | ->]; lia. }
  unfold Str.splitext. fold p. cbv zeta.
  set (sepIndex := if nt then _ else _).
  assert (Hlo : (-1 <= sepIndex)%Z).
  { unfold sepIndex. destruct nt; [| apply rfind_lower_bound].
    pose proof (rfind_lower_bound "\" p). lia. }
  assert (Hhi : (sepIndex < Z.of_nat (String.length dir))%Z).
  { unfold sepIndex. destruct nt.
    - pose proof (Hsep "\"%char Hname2 Hext2 ltac:(done)).
      pose proof (Hsep "/"%char Hname1 Hext1 ltac:(done)). lia.
    - by apply Hsep. }
  rewrite Hdotidx, append_length.
  destruct (Z.ltb_spec sepIndex (Z.of_nat (String.length dir + String.length name)));
    [| lia].
  destruct (only_char_false _ _ Hnondot) as (t & a & Hget & Ha).
  assert (Ht : (t < String.length name)%nat) by by eapply get_in_bounds.
  assert (Hgetp : String.get (t + String.length dir) p = Some a).
  { unfold p. rewrite <- append_correct2.
    by rewrite <- append_correct1. }
  rewrite (name_before_dot_found p _ _ (t + String.length dir) a); [| lia | done | done].
  cbn [andb fst]. rewrite Nat2Z.id, <- append_length, Hp.
  apply substring_append_left.
Qed.

(** X15. For a path made of any directory part, a file name that holds no
    separator and not only dots, a dot, and an extension without dot or
    separator, the output path is the same directory and name with
    '_compressed.pdf' in place of the extension: 'docs/report.PDF' gives
    'docs/report_compressed.pdf', on POSIX and on Windows alike. *)
Theorem output_name_of_ordinary_path (h : host) (dir name ext : string) :
  separator_free name = true ->
  separator_free ext = true ->
  free_of "." ext = true ->
  only_char "." name = false ->
  output_name h (dir ++ name ++ "." ++ ext) = dir ++ name ++ "_compressed.pdf".
Proof.
  intros Hname Hext Hdot Hnondot. unfold output_name.
  by rewrite splitext_ordinary, append_associative.
Qed.

Lemma output_name_of_ordinary_path_witness :
  separator_free "report" = true
  ∧ separator_free "PDF" = true
  ∧ free_of "." "PDF" = true
  ∧ only_char "." "report" = false
  ∧ output_name Sample.windows ("C:\docs\" ++ "report" ++ "." ++ "PDF")
    = "C:\docs\" ++ "report" ++ "_compressed.pdf".
Proof.
  assert (H1 : separator_free "report" = true) by reflexivity.
  assert (H2 : separator_free "PDF" = true) by reflexivity.
  assert (H3 : free_of "." "PDF" = true) by reflexivity.
  assert (H4 : only_char "." "report" = false) by reflexivity.
  split; [exact H1 |]. split; [exact H2 |]. split; [exact H3 |].
  split; [exact H4 |].
  exact (output_name_of_ordinary_path Sample.windows "C:\docs\" "report" "PDF"
           H1 H2 H3 H4).
Defined.

(** ** The engine binary *)

(** X16. [get_gs_binary] reads the disk and changes nothing.  Off Windows (the
    system name is compared in lower case) it answers 'gs'.  On Windows it
    answers the install path of 10.04.0 when that file exists, else the
    install path of 10.04 when that one exists, and the bare name
    'gswin64c.exe' exactly when neither exists: a path it answers is always
    a file on the disk. *)
Theorem get_gs_binary_choice (h : host) (w : world) :
  get_gs_binary h w = (Return (gs_binary_on h (fs w)), w)
  ∧ (gs_binary_on h (fs w) = "gs" <-> is_windows h = false)
  ∧ (is_windows h = true ->
     (gs_binary_on h (fs w) = "gswin64c.exe"
      <-> ∀ path, In path gs_paths -> exists_on (fs w) path = false)
     ∧ (gs_binary_on h (fs w) ≠ "gswin64c.exe" ->
        In (gs_binary_on h (fs w)) gs_paths
        ∧ exists_on (fs w) (gs_binary_on h (fs w)) = true)
     ∧ (exists_on (fs w) "C:\Program Files\gs\gs10.04.0\bin\gswin64c.exe" = true ->
        gs_binary_on h (fs w)
        = "C:\Program Files\gs\gs10.04.0\bin\gswin64c.exe")).
Proof.
  split; [done |]. unfold gs_binary_on, gs_paths. cbn [List.find].
  destruct (is_windows h).
  - split.
    + destruct (exists_on (fs w) _); [done |].
      by destruct (exists_on (fs w) _).
    + intros _.
      destruct (exists_on (fs w) "C:\Program Files\gs\gs10.04.0\bin\gswin64c.exe")
        eqn:E1.
      { split; [| split; [| done]].
        - split; [done |]. intros H.
          rewrite (H _ (or_introl eq_refl)) in E1. discriminate.
        - intros _. split; [by left | done]. }
      destruct (exists_on (fs w) "C:\Program Files\gs\gs10.04\bin\gswin64c.exe")
        eqn:E2.
      { split; [| split; [| done]].
        - split; [done |]. intros H.
          rewrite (H _ (or_intror (or_introl eq_refl))) in E2. discriminate.
        - intros _. split; [right; by left | done]. }
      split; [| split; [done | done]].
      split; [| done]. intros _ path [<- | [<- | []]]; done.
  - split; [done | done].
Qed.

Lemma get_gs_binary_choice_witness :
  is_windows Sample.windows = true
  ∧ gs_binary_on Sample.windows
      (fs (Sample.start
             {[ "C:\Program Files\gs\gs10.04\bin\gswin64c.exe" := 1 ]}))
    ≠ "gswin64c.exe"
  ∧ In (gs_binary_on Sample.windows
          (fs (Sample.start
                 {[ "C:\Program Files\gs\gs10.04\bin\gswin64c.exe" := 1 ]})))
       gs_paths
  ∧ exists_on
      (fs (Sample.start {[ "C:\Program Files\gs\gs10.04\bin\gswin64c.exe" := 1 ]}))
      (gs_binary_on Sample.windows
         (fs (Sample.start
                {[ "C:\Program Files\gs\gs10.04\bin\gswin64c.exe" := 1 ]})))
    = true.
Proof.
  assert (Hw : is_windows Sample.windows = true) by reflexivity.
  assert (Hne : gs_binary_on Sample.windows
                  (fs (Sample.start
                         {[ "C:\Program Files\gs\gs10.04\bin\gswin64c.exe" := 1 ]}))
                ≠ "gswin64c.exe")
    by (intros H; vm_compute in H; discriminate).
  split; [exact Hw |]. split; [exact Hne |].
  exact (proj1 (proj2 (proj2 (proj2 (get_gs_binary_choice Sample.windows
                                       (Sample.start
                                          {[ "C:\Program Files\gs\gs10.04\bin\gswin64c.exe" := 1 ]})))
                               Hw)) Hne).
Defined.

Section OneBinary.

Variable h : host.
Variable spawn : list string -> gmap string N -> launch * gmap string N.
Hypothesis engine_contract : engine_writes_only_output spawn.

Lemma gs_binary_on_agrees (d d' : gmap string N) :
  (∀ path, In path gs_paths -> d' !! path = d !! path) ->
  gs_binary_on h d' = gs_binary_on h d.
Proof.
  intros H. unfold gs_binary_on, gs_paths, exists_on in *. cbn [List.find].
  rewrite (H _ (or_introl eq_refl)), (H _ (or_intror (or_introl eq_refl))).
  done.
Qed.

Lemma output_is_no_probe_path (p path : string) :
  In path gs_paths -> path ≠ output_name h p.
Proof.
  intros Hin Heq.
  destruct (output_name_facts h p) as (_ & _ & Hpdf). rewrite <- Heq in Hpdf.
  destruct Hin as [<- | [<- | []]]; vm_compute in Hpdf; discriminate.
Qed.

Variable p : string.
Variable original_size : N.

Lemma fallback_loop_one_binary (qs : list string) :
  ∀ (w : world) (r : result (option string)) (w' : world),
    fallback_loop h spawn p (output_name h p) original_size qs w = (r, w') ->
    ∃ cmds,
      procs w' = (procs w ++ cmds)%list
      ∧ Forall (λ cmd, nth 0 cmd "" = gs_binary_on h (fs w)) cmds.
Proof.
  induction qs as [|q0 rest IH]; intros w r w' H.
  - injection H as <- <-. exists []. by rewrite app_nil_r.
  - rewrite fallback_loop_cons in H.
    destruct (attempt _ _ _ _ _ _ _) as [rv w1] eqn:Ea.
    pose proof (attempt_effects _ _ _ _ _ _ _ _ _ Ea) as Hp.
    assert (Hsame : gs_binary_on h (fs w1) = gs_binary_on h (fs w)).
    { apply gs_binary_on_agrees. intros path Hin.
      apply (attempt_keeps h spawn engine_contract _ _ _ path
               (output_is_no_probe_path p path Hin) _ _ _ _ Ea). }
    assert (Hone : Forall (λ cmd, nth 0 cmd "" = gs_binary_on h (fs w))
                     [gs_command (gs_binary_on h (fs w)) p (output_name h p) q0])
      by by repeat constructor.
    assert (Hgo : fallback_loop h spawn p (output_name h p) original_size rest w1
                  = (r, w') ->
              ∃ cmds,
                procs w' = (procs w ++ cmds)%list
                ∧ Forall (λ cmd, nth 0 cmd "" = gs_binary_on h (fs w)) cmds).
    { intros Hrest. destruct (IH _ _ _ Hrest) as (cmds & Hprocs & Hall).
      rewrite Hsame in Hall.
      exists (gs_command (gs_binary_on h (fs w)) p (output_name h p) q0 :: cmds).
      split; [by rewrite Hprocs, Hp, <- app_assoc |]. by constructor. }
    destruct rv as [[| |c]|e]; [by apply Hgo | by apply Hgo | |];
      injection H as <- <-; by eexists.
Qed.

End OneBinary.

(** X17. With an engine that writes only where its output argument says, every
    call of a run names the same binary, the one [get_gs_binary] picks on
    the disk the run starts with: the binary whose version was checked is
    the binary that compresses. *)
Theorem one_binary_per_run
    (h : host) (spawn : list string -> gmap string N -> launch * gmap string N)
    (argv : list string) (w : world) :
  engine_writes_only_output spawn ->
  ∃ cmds,
    procs (snd (main h spawn argv w)) = (procs w ++ cmds)%list
    ∧ Forall (λ cmd, nth 0 cmd "" = gs_binary_on h (fs w)) cmds.
Proof.
  intros Hengine.
  destruct (Nat.eq_dec (List.length argv) 2%nat) as [Hlen|Hlen].
  2:{ rewrite wrong_arity_usage by done. exists []. by rewrite app_nil_r. }
  destruct argv as [|prog [|p [|]]]; try done.
  assert (Hq : Forall (λ cmd, nth 0 cmd "" = gs_binary_on h (fs w))
                 [version_query h w]) by by repeat constructor.
  rewrite main_run.
  pose proof (check_ghostscript_procs h spawn w) as Hp.
  assert (Hsame : gs_binary_on h (fs (snd (check_ghostscript h spawn w)))
                  = gs_binary_on h (fs w)).
  { apply gs_binary_on_agrees. intros path _.
    by apply check_ghostscript_keeps. }
  destruct (check_ghostscript h spawn w) as [[[|]|e] w1];
    cbn [snd] in Hp, Hsame |- *.
  2,3: by exists [version_query h w].
  destruct (_ && _); [| by exists [version_query h w]].
  destruct (fs w1 !! p) as [n|]; [| by exists [version_query h w]].
  destruct (fallback_loop _ _ _ _ _ _ _) as [r w3] eqn:El.
  destruct (fallback_loop_one_binary h spawn Hengine _ _ _ _ _ _ El)
    as (cmds & Hprocs & Hall).
  cbn [say procs fs] in Hprocs, Hall. rewrite Hsame in Hall.
  exists (version_query h w :: cmds). split.
  - destruct r as [[q|]|e]; cbn [snd say procs];
      by rewrite Hprocs, Hp, <- app_assoc.
  - by constructor.
Qed.

Lemma one_binary_per_run_witness :
  engine_writes_only_output Sample.tidy_engine
  ∧ ∃ cmds,
      procs (snd (main Sample.windows Sample.tidy_engine
                    ["pdf_compressor.py"; "report.pdf"]
                    (Sample.start
                       (<["C:\Program Files\gs\gs10.04\bin\gswin64c.exe" := 1]>
                          Sample.report_disk))))
      = (procs (Sample.start
                  (<["C:\Program Files\gs\gs10.04\bin\gswin64c.exe" := 1]>
                     Sample.report_disk)) ++ cmds)%list
      ∧ Forall (λ cmd,
                  nth 0 cmd ""
                  = gs_binary_on Sample.windows
                      (fs (Sample.start
                             (<["C:\Program Files\gs\gs10.04\bin\gswin64c.exe" := 1]>
                                Sample.report_disk)))) cmds.
Proof.
  split; [exact tidy_engine_writes_only_output |].
  exact (one_binary_per_run Sample.windows Sample.tidy_engine
           ["pdf_compressor.py"; "report.pdf"]
           (Sample.start
              (<["C:\Program Files\gs\gs10.04\bin\gswin64c.exe" := 1]>
                 Sample.report_disk))
           tidy_engine_writes_only_output).
Defined.

(** ** When the engine fails every time *)

Section AllFail.

Variable h : host.
Variable spawn : list string -> gmap string N -> launch * gmap string N.
Hypothesis diagnostics : diagnostics_decode spawn.
Hypothesis failing : never_succeeds spawn.
Variables input_pdf output_pdf : string.
Variable original_size : N.

Lemma attempt_fails (quality : string) (w : world) :
  ∃ w1,
    attempt h spawn input_pdf output_pdf original_size quality w
    = (Return DriverFailed, w1)
    ∧ List.length (procs w1) = S (List.length (procs w)).
Proof.
  rewrite attempt_run.
  destruct (compress_pdf _ _ _ _ _ _) as [rb w1] eqn:Ec.
  pose proof (compress_pdf_effects _ _ _ _ _ _ _ _ Ec) as [Hp _].
  cbn [say procs] in Hp.
  assert (Hlen : List.length (procs w1) = S (List.length (procs w)))
    by (rewrite Hp, length_app; cbn; lia).
  rewrite compress_pdf_run in Ec. cbv zeta in Ec. cbn [say fs] in Ec.
  pose proof (diagnostics (gs_command (gs_binary_on h (fs w)) input_pdf output_pdf
                             quality) (fs w)) as Hdec.
  pose proof (failing (gs_binary_on h (fs w)) input_pdf output_pdf quality (fs w))
    as Hfail.
  destruct (fst (spawn _ (fs w))) as [p| |what].
  - destruct (Z.eqb_spec (returncode p) 0) as [Hz|_];
      [by destruct (Hfail p eq_refl) |].
    rewrite (Hdec p eq_refl) in Ec. injection Ec as <- <-. by eexists.
  - injection Ec as <- <-. by eexists.
  - injection Ec as <- <-. by eexists.
Qed.

Lemma fallback_loop_all_fail (qs : list string) :
  ∀ w : world,
    ∃ w',
      fallback_loop h spawn input_pdf output_pdf original_size qs w
      = (Return None, w')
      ∧ List.length (procs w') = (List.length (procs w) + List.length qs)%nat.
Proof.
  induction qs as [|q0 rest IH]; intros w.
  - exists w. split; [done | cbn; lia].
  - rewrite fallback_loop_cons.
    destruct (attempt_fails q0 w) as (w1 & -> & Hlen).
    destruct (IH w1) as (w' & -> & Hlen').
    exists w'. split; [done |]. cbn [List.length]. lia.
Qed.

End AllFail.

(** X18. If no compression run ever ends with status 0 (the engine cannot be
    launched any more, or stops with an error whose text decodes), the
    driver returns False at all three presets, and [main] ends normally
    with the block of hints about an already optimised file as its last
    message, after exactly four calls of [subprocess.run]: engine failures
    are reported as a file that could not be reduced. *)
Theorem engine_failures_are_reported_as_no_reduction
    (h : host) (spawn : list string -> gmap string N -> launch * gmap string N)
    (prog p : string) (w wv : world) (n : N) :
  check_ghostscript h spawn w = (Return true, wv) ->
  fs wv !! p = Some n ->
  Str.endswith (Str.lower p) ".pdf" = true ->
  diagnostics_decode spawn ->
  never_succeeds spawn ->
  ∃ w',
    main h spawn [prog; p] w = (Return tt, w')
    ∧ last (console w') = Some MsgNoReduction
    ∧ List.length (procs w') = (List.length (procs w) + 4)%nat.
Proof.
  intros Hgs Hp Hext Hdec Hfail.
  rewrite main_run, Hgs. unfold exists_on. rewrite Hp, Hext. cbn [andb].
  destruct (fallback_loop_all_fail h spawn Hdec Hfail p (output_name h p)
              (round53 n) quality_levels
              (say MsgCompressing (say (MsgOriginalSize (round53 n)) wv)))
    as (w3 & -> & Hlen).
  exists (say MsgNoReduction w3). split; [done |]. split.
  - cbn [say console]. apply last_snoc.
  - cbn [say procs] in Hlen |- *. rewrite Hlen.
    pose proof (check_ghostscript_procs h spawn w) as Hpv.
    rewrite Hgs in Hpv. cbn [snd] in Hpv.
    rewrite Hpv, length_app. cbn. lia.
Qed.

Lemma truncating_engine_never_succeeds : never_succeeds Sample.truncating_engine.
Proof.
  intros gs_binary input_path output_path quality d p.
  unfold Sample.truncating_engine. rewrite sample_engine_compress.
  cbn [fst]. by intros [= <-].
Qed.

Lemma truncating_engine_diagnostics_decode :
  diagnostics_decode Sample.truncating_engine.
Proof.
  intros cmd d p. unfold Sample.truncating_engine, Sample.engine.
  destruct (String.eqb _ _); by intros [= <-].
Qed.

Lemma engine_failures_are_reported_as_no_reduction_witness :
  check_ghostscript Sample.linux Sample.truncating_engine
    (Sample.start Sample.report_disk)
  = (Return true, Sample.report_checked)
  ∧ fs Sample.report_checked !! "report.pdf" = Some 10000
  ∧ Str.endswith (Str.lower "report.pdf") ".pdf" = true
  ∧ diagnostics_decode Sample.truncating_engine
  ∧ never_succeeds Sample.truncating_engine
  ∧ ∃ w',
      main Sample.linux Sample.truncating_engine
        ["pdf_compressor.py"; "report.pdf"] (Sample.start Sample.report_disk)
      = (Return tt, w')
      ∧ last (console w') = Some MsgNoReduction
      ∧ List.length (procs w')
        = (List.length (procs (Sample.start Sample.report_disk)) + 4)%nat.
Proof.
  assert (Hgs : check_ghostscript Sample.linux Sample.truncating_engine
                  (Sample.start Sample.report_disk)
                = (Return true, Sample.report_checked))
    by (vm_compute; reflexivity).
  assert (Hp : fs Sample.report_checked !! "report.pdf" = Some 10000)
    by (vm_compute; reflexivity).
  assert (Hext : Str.endswith (Str.lower "report.pdf") ".pdf" = true)
    by (vm_compute; reflexivity).
  split; [exact Hgs |]. split; [exact Hp |]. split; [exact Hext |].
  split; [exact truncating_engine_diagnostics_decode |].
  split; [exact truncating_engine_never_succeeds |].
  exact (engine_failures_are_reported_as_no_reduction Sample.linux
           Sample.truncating_engine "pdf_compressor.py" "report.pdf"
           (Sample.start Sample.report_disk) Sample.report_checked 10000
           Hgs Hp Hext truncating_engine_diagnostics_decode
           truncating_engine_never_succeeds).
Defined.

(** ** Diagnostics *)

Lemma ascii_is_utf8 (bs : list byte) :
  ascii_only bs -> Str.utf8_valid bs = true.
Proof.
  induction 1 as [|b bs Hb _ IH]; [done |].
  cbn [Str.utf8_valid]. unfold Str.between at 1.
  apply N.ltb_lt in Hb as Hb'.
  assert (H1 : (0 <=? Byte.to_N b) = true) by (apply N.leb_le; lia).
  assert (H2 : (Byte.to_N b <=? 127) = true) by (apply N.leb_le; lia).
  by rewrite H1, H2.
Qed.

(** X19. When the engine's diagnostic is plain ASCII the driver never raises:
    it makes its one call and returns a boolean, which is True exactly
    when the engine ran and ended with status 0; a launch that fails, for
    whatever reason, gives False. *)
Theorem driver_returns_exit_status
    (h : host) (spawn : list string -> gmap string N -> launch * gmap string N)
    (input_path output_path quality : string) (w : world) :
  (∀ p,
     fst (spawn (gs_command (gs_binary_on h (fs w)) input_path output_path quality)
            (fs w)) = Exited p ->
     ascii_only (stderr p)) ->
  ∃ b w1,
    compress_pdf h spawn input_path output_path quality w = (Return b, w1)
    ∧ (b = true <->
       ∃ p,
         fst (spawn (gs_command (gs_binary_on h (fs w)) input_path output_path
                       quality) (fs w)) = Exited p
         ∧ returncode p = 0%Z)
    ∧ procs w1
      = (procs w
         ++ [gs_command (gs_binary_on h (fs w)) input_path output_path quality])%list.
Proof.
  intros Hascii. rewrite compress_pdf_run. cbv zeta.
  destruct (fst (spawn _ (fs w))) as [p| |what].
  - destruct (Z.eqb_spec (returncode p) 0) as [Hz|Hnz].
    + eexists _, _. split; [done |]. split; [| done].
      split; [| done]. intros _. by exists p.
    + rewrite (ascii_is_utf8 _ (Hascii p eq_refl)).
      eexists _, _. split; [done |]. split; [| done].
      split; [done |]. by intros (p' & [= <-] & Hz).
  - eexists _, _. split; [done |]. split; [| done].
    split; [done |]. by intros (p' & ? & _).
  - eexists _, _. split; [done |]. split; [| done].
    split; [done |]. by intros (p' & ? & _).
Qed.

Lemma driver_returns_exit_status_witness :
  (∀ p,
     fst (Sample.truncating_engine
            (gs_command (gs_binary_on Sample.linux (fs Sample.report_begun))
               "report.pdf" "report_compressed.pdf" "printer")
            (fs Sample.report_begun)) = Exited p ->
     ascii_only (stderr p))
  ∧ ∃ b w1,
      compress_pdf Sample.linux Sample.truncating_engine "report.pdf"
        "report_compressed.pdf" "printer" Sample.report_begun = (Return b, w1)
      ∧ (b = true <->
         ∃ p,
           fst (Sample.truncating_engine
                  (gs_command (gs_binary_on Sample.linux (fs Sample.report_begun))
                     "report.pdf" "report_compressed.pdf" "printer")
                  (fs Sample.report_begun)) = Exited p
           ∧ returncode p = 0%Z)
      ∧ procs w1
        = (procs Sample.report_begun
           ++ [gs_command (gs_binary_on Sample.linux (fs Sample.report_begun))
                 "report.pdf" "report_compressed.pdf" "printer"])%list.
Proof.
  assert (Hascii : ∀ p,
            fst (Sample.truncating_engine
                   (gs_command (gs_binary_on Sample.linux (fs Sample.report_begun))
                      "report.pdf" "report_compressed.pdf" "printer")
                   (fs Sample.report_begun)) = Exited p ->
            ascii_only (stderr p)).
  { intros p Hp. vm_compute in Hp. injection Hp as <-. constructor. }
  split; [exact Hascii |].
  exact (driver_returns_exit_status Sample.linux Sample.truncating_engine
           "report.pdf" "report_compressed.pdf" "printer" Sample.report_begun
           Hascii).
Defined.

(** ** The success message *)

(** X20. When the loop accepts a preset, the last thing printed is the success
    message for that preset, and the compressed size it reports is the
    measured size of the file that is at the output path when the loop
    ends. *)
Theorem success_message_reports_the_output
    (h : host) (spawn : list string -> gmap string N -> launch * gmap string N)
    (input_pdf output_pdf : string) (original_size : N)
    (w : world) (q : string) (w' : world) :
  fallback_loop h spawn input_pdf output_pdf original_size quality_levels w
  = (Return (Some q), w') ->
  ∃ n,
    fs w' !! output_pdf = Some n
    ∧ last (console w')
      = Some (MsgSuccess q original_size (round53 n)
                (percent original_size (round53 n)) output_pdf).
Proof.
  intros H.
  destruct (fallback_loop_accepts _ _ _ _ _ _ _ _ _ H)
    as (pre & post & wq & c & cmds & _ & _ & _ & Ha & _).
  rewrite attempt_run in Ha.
  destruct (compress_pdf _ _ _ _ _ _) as [[[|]|e] w1]; try done.
  destruct (fs w1 !! output_pdf) as [n|] eqn:En; [| done].
  destruct (original_size =? 0); [done |].
  destruct (round53 n <? original_size); [| done].
  injection Ha as <- <-. exists n. split; [done |].
  cbn [say console]. apply last_snoc.
Qed.

Lemma success_message_reports_the_output_witness :
  fallback_loop Sample.linux Sample.report_engine "report.pdf"
    "report_compressed.pdf" 10000 quality_levels Sample.report_begun
  = (Return (Some "ebook"),
     World (<["report_compressed.pdf" := 6000]> Sample.report_disk)
       [["gs"; "--version"];
        gs_command "gs" "report.pdf" "report_compressed.pdf" "printer";
        gs_command "gs" "report.pdf" "report_compressed.pdf" "ebook"]
       [MsgOriginalSize 10000; MsgCompressing;
        MsgTrying "printer"; MsgNextLevel; MsgTrying "ebook";
        MsgSuccess "ebook" 10000 6000 (percent 10000 6000)
          "report_compressed.pdf"])
  ∧ ∃ n,
      fs (World (<["report_compressed.pdf" := 6000]> Sample.report_disk)
            [["gs"; "--version"];
             gs_command "gs" "report.pdf" "report_compressed.pdf" "printer";
             gs_command "gs" "report.pdf" "report_compressed.pdf" "ebook"]
            [MsgOriginalSize 10000; MsgCompressing;
             MsgTrying "printer"; MsgNextLevel; MsgTrying "ebook";
             MsgSuccess "ebook" 10000 6000 (percent 10000 6000)
               "report_compressed.pdf"])
         !! "report_compressed.pdf" = Some n
      ∧ last (console
                (World (<["report_compressed.pdf" := 6000]> Sample.report_disk)
                   [["gs"; "--version"];
                    gs_command "gs" "report.pdf" "report_compressed.pdf" "printer";
                    gs_command "gs" "report.pdf" "report_compressed.pdf" "ebook"]
                   [MsgOriginalSize 10000; MsgCompressing;
                    MsgTrying "printer"; MsgNextLevel; MsgTrying "ebook";
                    MsgSuccess "ebook" 10000 6000 (percent 10000 6000)
                      "report_compressed.pdf"]))
        = Some (MsgSuccess "ebook" 10000 (round53 n)
                  (percent 10000 (round53 n)) "report_compressed.pdf").
Proof.
  assert (Hrun :
    fallback_loop Sample.linux Sample.report_engine "report.pdf"
      "report_compressed.pdf" 10000 quality_levels Sample.report_begun
    = (Return (Some "ebook"),
       World (<["report_compressed.pdf" := 6000]> Sample.report_disk)
         [["gs"; "--version"];
          gs_command "gs" "report.pdf" "report_compressed.pdf" "printer";
          gs_command "gs" "report.pdf" "report_compressed.pdf" "ebook"]
         [MsgOriginalSize 10000; MsgCompressing;
          MsgTrying "printer"; MsgNextLevel; MsgTrying "ebook";
          MsgSuccess "ebook" 10000 6000 (percent 10000 6000)
            "report_compressed.pdf"]))
    by (vm_compute; reflexivity).
  split; [exact Hrun |].
  exact (success_message_reports_the_output _ _ _ _ _ _ _ _ Hrun).
Defined.
